(** * The view-model builder of the bar-chart visual

    A shallow embedding of [Visual.getViewModel] (the TypeScript method of the
    Power BI bar-chart visual) and of the few library functions it calls
    ([d3.max], [d3.sum], [Number.prototype.toFixed], [Math.max]).

    - JavaScript numbers are IEEE 754 binary64 values: Rocq's primitive [float].
    - A JavaScript exception is the [TypeError] outcome of the [completion] type;
      every operation of the method that can throw throws a [TypeError].
    - The host services (colour palette, selection-id builder) and the
      data-view utility [getFillColor] are not code of the visual: they are
      parameters of the development. *)

From Stdlib Require Import List String Ascii ZArith NArith Lia Bool.
From Stdlib Require Import Floats DecimalString.
From Stdlib Require Uint63.
Import ListNotations.
Local Open Scope string_scope.

(** ** JavaScript values and completions *)

(** [PrimitiveValue] of the host API (string | number | boolean | Date), with
    the two values an array read can also give: [null] and [undefined] (the
    latter is what an out-of-bounds read yields). *)
Inductive PrimitiveValue : Type :=
| JSUndefined
| JSNull
| JSBoolean (b : bool)
| JSNumber (x : float)
| JSString (s : string)
| JSDate (time : float).

(** ToBoolean: what [v ? a : b], [!v] and [filter] test. *)
Definition truthy (v : PrimitiveValue) : bool :=
  match v with
  | JSUndefined | JSNull => false
  | JSBoolean b => b
  | JSNumber x => negb (PrimFloat.is_zero x || PrimFloat.is_nan x)
  | JSString s => negb (String.eqb s "")
  | JSDate _ => true
  end.

(** The outcome of evaluating code: a value, or a thrown [TypeError]. *)
Inductive completion (A : Type) : Type :=
| Return (a : A)
| TypeError.
Arguments Return {A} a.
Arguments TypeError {A}.

Definition bind {A B} (c : completion A) (k : A -> completion B) : completion B :=
  match c with
  | Return a => k a
  | TypeError => TypeError
  end.

Notation "x <- c ;; k" := (bind c (fun x => k))
  (at level 61, c at next level, right associativity).

(** A loop body run once per element, in order, stopping at the first throw. *)
Fixpoint forEach {A B} (body : A -> completion B) (l : list A) : completion (list B) :=
  match l with
  | [] => Return []
  | a :: l' =>
      b <- body a ;;
      bs <- forEach body l' ;;
      Return (b :: bs)
  end.

(** [array[i]]: the element, or [undefined] past the end. *)
Definition at_index (array : list PrimitiveValue) (i : nat) : PrimitiveValue :=
  nth i array JSUndefined.

(** ** Library functions *)

(** [array.length] as a number (array lengths are below 2^32). *)
Definition of_length (n : nat) : float := of_uint63 (Uint63.of_Z (Z.of_nat n)).

(** [d3.max(array, f)] of d3 version 3 (the version with [d3.scale.linear]
    and [d3.svg.axis]), on values that are numbers: a first loop stops at the
    first value [b] with [b >= b] (the first that is not NaN), a second loop
    replaces the running maximum [a] by every later [b] with [b > a]; the
    result is [undefined] when the first loop finds no value, in particular on
    an empty array. *)
Fixpoint d3_max_from (a : float) (l : list float) : float :=
  match l with
  | [] => a
  | b :: l' => d3_max_from (if (a <? b)%float then b else a) l'
  end.

Fixpoint d3_max_values (l : list float) : option float :=
  match l with
  | [] => None
  | b :: l' => if (b <=? b)%float then Some (d3_max_from b l') else d3_max_values l'
  end.

Definition d3_max {A} (array : list A) (f : A -> float) : option float :=
  d3_max_values (map f array).

(** [d3.sum(array, f)] of the same version: starts from 0 and adds, in order,
    every value that is not NaN. *)
Definition d3_sum_values (l : list float) : float :=
  fold_left (fun s a => if is_nan a then s else (s + a)%float) l 0%float.

Definition d3_sum {A} (array : list A) (f : A -> float) : float :=
  d3_sum_values (map f array).

(** *** [Number.prototype.toFixed] *)

Definition decimal (n : Z) : string := NilZero.string_of_uint (N.to_uint (Z.to_N n)).

Fixpoint zeros (n : nat) : string :=
  match n with
  | O => ""
  | S n' => String "0" (zeros n')
  end.

(** The integer [n] for which [n / 10^f - m * 2^e] is closest to zero, the
    larger one when two are as close. *)
Definition scaled_nearest (m : positive) (e : Z) (f : nat) : Z :=
  let num := (Z.pos m * 10 ^ Z.of_nat f)%Z in
  if (0 <=? e)%Z then (num * 2 ^ e)%Z
  else ((2 * num + 2 ^ (- e)) / 2 ^ (1 - e))%Z.

(** The digits of [n] with a point before the last [f] of them, zero-padded
    on the left to at least [f + 1] digits. *)
Definition fixed_digits (n : Z) (f : nat) : string :=
  let m := decimal n in
  let m := if (String.length m <=? f)%nat then zeros (f + 1 - String.length m) ++ m else m in
  let k := String.length m in
  if (f =? 0)%nat then m
  else substring 0 (k - f) m ++ "." ++ substring (k - f) f m.

Set Implicit Arguments.
Set Maximal Implicit Insertion.

Section Visual.

(** [Number::toString], used by [toFixed] for magnitudes of at least 10^21. *)
Variable Number_toString : float -> string.

(** [x.toFixed(fractionDigits)] for a number [x] (fractionDigits in 0..100). *)
Definition toFixed (x : float) (fractionDigits : nat) : string :=
  match Prim2SF x with
  | S754_nan => "NaN"
  | S754_infinity s => if s then "-Infinity" else "Infinity"
  | S754_zero _ => fixed_digits 0 fractionDigits
  | S754_finite s m e =>
      (if s then "-" else "") ++
      (if (1e21 <=? abs x)%float then Number_toString (abs x)
       else fixed_digits (scaled_nearest m e fractionDigits) fractionDigits)
  end.

(** The receiver of [v.toFixed(...)]: only a number has the method. On
    [undefined] and [null] the property read throws; on a string, a boolean
    or a Date the call of the missing method throws. *)
Definition thisNumberValue (v : PrimitiveValue) : completion float :=
  match v with
  | JSNumber x => Return x
  | _ => TypeError
  end.

(** ** The host's data view *)

(** Per-row formatting objects (opaque; read through [getFillColor]). *)
Variable DataViewObjects : Type.

Record DataViewMetadataColumn : Type := {
  displayName : string;
  roles : option (list (string * bool))
}.

Record DataViewMetadata : Type := {
  columns : list DataViewMetadataColumn
}.

Record DataViewCategoryColumn : Type := {
  cat_source : option DataViewMetadataColumn;
  cat_values : list PrimitiveValue;
  cat_objects : option (list (option DataViewObjects))
}.

Record DataViewValueColumn : Type := {
  val_values : list PrimitiveValue;
  val_highlights : option (list PrimitiveValue)
}.

Record DataViewCategorical : Type := {
  categories : option (list DataViewCategoryColumn);
  values : option (list DataViewValueColumn)
}.

Record DataView : Type := {
  metadata : option DataViewMetadata;
  categorical : option DataViewCategorical
}.

Record VisualUpdateOptions : Type := {
  dataViews : option (list (option DataView))
}.

(** ** The host services *)

Variable ISelectionId : Type.

(** [host.colorPalette.getColor(key).value]. The palette is the host's
    object; it is read here as the map from keys to colours that it is
    during one call of the builder. Nothing below relates the colours of one
    call of [update] to those of another. *)
Variable getColor : PrimitiveValue -> string.

(** [DataViewObjects.getFillColor(objects, {objectName, propertyName}, null)];
    [None] is the [null] default. *)
Variable getFillColor : DataViewObjects -> string -> string -> option string.

(** [host.createSelectionIdBuilder().withCategory(categories, i).createSelectionId()] *)
Variable createSelectionId : DataViewCategoryColumn -> nat -> ISelectionId.

(** ** The view model *)

Record VisualTooltipDataItem : Type := {
  tip_displayName : string;
  tip_value : PrimitiveValue
}.

(** [value] is a [float]: a data point whose measure is not a number is never
    built, because the [toFixed] call of the same object literal throws. *)
Record DataPoint : Type := {
  category : PrimitiveValue;
  value : float;
  colour : string;
  identity : ISelectionId;
  highlighted : bool;
  tooltips : list VisualTooltipDataItem
}.

(** [maxValue] is what [d3.max] returned: a number or [undefined] ([None]). *)
Record ViewModel : Type := {
  dataPoints : list DataPoint;
  maxValue : option float;
  highlights : bool;
  average : float
}.

(** ** [getViewModel] *)

(** The initial view model (lines 300-305). *)
Definition emptyViewModel : ViewModel :=
  {| dataPoints := []; maxValue := Some 0%float; highlights := false; average := 0%float |}.

(** The guard of lines 307-314. [Rejected]: one of the tested parts is falsy
    and the method returns the initial view model. The operands are tested
    left to right; [categories[0].source] is read without a test of
    [categories[0]], which throws when the array is empty. *)
Inductive checked : Type :=
| Rejected
| Accepted (view : DataViewCategorical) (categories0 : DataViewCategoryColumn)
           (valueColumns : list DataViewValueColumn) (metadata0 : DataViewMetadata).

Definition inputCheck (options : VisualUpdateOptions) : completion checked :=
  match dataViews options with
  | None => Return Rejected
  | Some dv =>
      match nth_error dv 0 with
      | None | Some None => Return Rejected
      | Some (Some dv0) =>
          match categorical dv0 with
          | None => Return Rejected
          | Some view =>
              match categories view with
              | None => Return Rejected
              | Some cats =>
                  match nth_error cats 0 with
                  | None => TypeError
                  | Some categories0 =>
                      match cat_source categories0 with
                      | None => Return Rejected
                      | Some _ =>
                          match values view with
                          | None => Return Rejected
                          | Some valueColumns =>
                              match metadata dv0 with
                              | None => Return Rejected
                              | Some metadata0 =>
                                  Return (Accepted view categories0 valueColumns metadata0)
                              end
                          end
                      end
                  end
              end
          end
      end
  end.

Fixpoint lookup (key : string) (object : list (string * bool)) : option bool :=
  match object with
  | [] => None
  | (k, b) :: rest => if String.eqb k key then Some b else lookup key rest
  end.

(** [metadata.columns.filter(c => c.roles[role])[0].displayName]
    (lines 322-323): reading [c.roles[role]] throws on a column without
    [roles]; reading [displayName] throws when no column has the role. *)
Definition hasRole (role : string) (c : DataViewMetadataColumn) : completion bool :=
  match roles c with
  | None => TypeError
  | Some r => Return (match lookup role r with Some b => b | None => false end)
  end.

Definition columnName (metadata0 : DataViewMetadata) (role : string) : completion string :=
  flags <- forEach (hasRole role) (columns metadata0) ;;
  match filter snd (combine (columns metadata0) flags) with
  | [] => TypeError
  | (c, _) :: _ => Return (displayName c)
  end.

(** The colour of row [i] (lines 329-332):
    [objects && objects[i] && getFillColor(...) || getColor(category)]. *)
Definition rowColour (objects : option (list (option DataViewObjects)))
           (categoryValue : PrimitiveValue) (i : nat) : string :=
  let fill :=
    match objects with
    | None => None
    | Some os =>
        match nth_error os i with
        | Some (Some o) => getFillColor o "dataColors" "fill"
        | _ => None
        end
    end in
  match fill with
  | Some c => if String.eqb c "" then getColor categoryValue else c
  | None => getColor categoryValue
  end.

(** The [highlighted] field of row [i] (line 336):
    [highlights ? highlights[i] ? true : false : false]. *)
Definition rowHighlighted (highlights0 : option (list PrimitiveValue)) (i : nat) : bool :=
  match highlights0 with
  | Some hs => if truthy (at_index hs i) then true else false
  | None => false
  end.

(** The object literal pushed for row [i] (lines 326-347). The measure
    [values.values[i]] is the receiver of [toFixed(2)] in the same literal, so
    the literal is built only when it is a number. *)
Definition dataPoint (categories0 : DataViewCategoryColumn) (values0 : DataViewValueColumn)
           (categoryColumnName valueColumnName : string) (i : nat) : completion DataPoint :=
  let c := at_index (cat_values categories0) i in
  x <- thisNumberValue (at_index (val_values values0) i) ;;
  Return {| category := c;
            value := x;
            colour := rowColour (cat_objects categories0) c i;
            identity := createSelectionId categories0 i;
            highlighted := rowHighlighted (val_highlights values0) i;
            tooltips := [ {| tip_displayName := categoryColumnName; tip_value := c |};
                          {| tip_displayName := valueColumnName;
                             tip_value := JSString (toFixed x 2) |} ] |}.

(** The tooltip entries pushed by the loops of lines 357-371. *)
Definition deviationAbs (average0 : float) (dp : DataPoint) : VisualTooltipDataItem :=
  {| tip_displayName := "Deviation (abs)";
     tip_value := JSString (toFixed (value dp - average0)%float 2) |}.

Definition deviationPercent (average0 : float) (dp : DataPoint) : VisualTooltipDataItem :=
  {| tip_displayName := "Deviation (%)";
     tip_value := JSString (toFixed (100 * (value dp - average0) / average0)%float 2 ++ "%") |}.

Definition pushTooltip (item : DataPoint -> VisualTooltipDataItem) (dp : DataPoint) : DataPoint :=
  {| category := category dp;
     value := value dp;
     colour := colour dp;
     identity := identity dp;
     highlighted := highlighted dp;
     tooltips := tooltips dp ++ [item dp] |}.

(** Lines 350-373: the statistics and the deviation tooltips, from the data
    points the first loop pushed. *)
Definition summarise (points : list DataPoint) : ViewModel :=
  let maxValue0 := d3_max points value in
  let highlights0 := (0 <? List.length (filter highlighted points))%nat in
  let average0 :=
    if (0 <? List.length points)%nat
    then (d3_sum points value / of_length (List.length points))%float
    else 0%float in
  let points := map (pushTooltip (deviationAbs average0)) points in
  let points :=
    if negb (average0 =? 0)%float
    then map (pushTooltip (deviationPercent average0)) points
    else points in
  {| dataPoints := points; maxValue := maxValue0; highlights := highlights0; average := average0 |}.

(** The bound of the first loop (line 325):
    [Math.max(categories.values.length, values.values.length)]. *)
Definition rowCount (categories0 : DataViewCategoryColumn) (values0 : DataViewValueColumn) : nat :=
  Nat.max (List.length (cat_values categories0)) (List.length (val_values values0)).

(** The method (lines 296-374): the guard, the first measure column (whose
    [highlights] are read at once, line 319), the two column names, the loop
    over the row indices and the summary. *)
Definition getViewModel (options : VisualUpdateOptions) : completion ViewModel :=
  c <- inputCheck options ;;
  match c with
  | Rejected => Return emptyViewModel
  | Accepted view categories0 valueColumns metadata0 =>
      match nth_error valueColumns 0 with
      | None => TypeError
      | Some values0 =>
          categoryColumnName <- columnName metadata0 "category" ;;
          valueColumnName <- columnName metadata0 "measure" ;;
          let len := rowCount categories0 values0 in
          points <- forEach (dataPoint categories0 values0 categoryColumnName valueColumnName)
                            (seq 0 len) ;;
          Return (summarise points)
      end
  end.

(** ** Accepted and well-formed inputs *)

(** The input passes the guard; [categories0], [values0] and [metadata0] are
    the first category column, the first measure column and the metadata the
    method goes on with (lines 316-321). *)
Definition accepted (options : VisualUpdateOptions) (categories0 : DataViewCategoryColumn)
           (values0 : DataViewValueColumn) (metadata0 : DataViewMetadata) : Prop :=
  exists view valueColumns,
    inputCheck options = Return (Accepted view categories0 valueColumns metadata0) /\
    nth_error valueColumns 0 = Some values0.

(** Every metadata column has [roles], and some column has the role. *)
Definition declaresRole (metadata0 : DataViewMetadata) (role : string) : bool :=
  forallb (fun c => match roles c with Some _ => true | None => false end) (columns metadata0) &&
  existsb (fun c => match roles c with
                    | Some r => match lookup role r with Some b => b | None => false end
                    | None => false
                    end) (columns metadata0).

(** Every row index below [rowCount] has a number as its measure. *)
Definition numericRows (categories0 : DataViewCategoryColumn) (values0 : DataViewValueColumn) : bool :=
  forallb (fun i => match at_index (val_values values0) i with JSNumber _ => true | _ => false end)
          (seq 0 (rowCount categories0 values0)).

(** A well-formed input: accepted, with a category and a measure column
    declared in the metadata and a numeric measure in every row. *)
Definition wellFormed (options : VisualUpdateOptions) (categories0 : DataViewCategoryColumn)
           (values0 : DataViewValueColumn) : Prop :=
  exists metadata0,
    accepted options categories0 values0 metadata0 /\
    declaresRole metadata0 "category" = true /\
    declaresRole metadata0 "measure" = true /\
    numericRows categories0 values0 = true.

End Visual.

Unset Implicit Arguments.
Unset Maximal Implicit Insertion.
Arguments emptyViewModel {ISelectionId}.
Arguments Rejected {DataViewObjects}.

(** ** Sample inputs and a sample host

    The inputs of the worked examples. The sample host gives every category
    the same palette colour, has no per-row fill override, and keys a
    selection id by the category column's display name and the row index. *)

Definition sampleColumns : list DataViewMetadataColumn :=
  [ {| displayName := "Category"; roles := Some [("category", true)] |};
    {| displayName := "Value"; roles := Some [("measure", true)] |} ].

Definition sampleCategory (categoryValues : list PrimitiveValue) : DataViewCategoryColumn unit :=
  {| cat_source := nth_error sampleColumns 0;
     cat_values := categoryValues;
     cat_objects := None |}.

Definition sampleMeasure (measures : list PrimitiveValue)
           (highlights0 : option (list PrimitiveValue)) : DataViewValueColumn :=
  {| val_values := measures; val_highlights := highlights0 |}.

(** A data view with one category column and one measure column. *)
Definition sampleOptions (categoryValues measures : list PrimitiveValue)
           (highlights0 : option (list PrimitiveValue)) : VisualUpdateOptions unit :=
  {| dataViews :=
       Some [ Some {| metadata := Some {| columns := sampleColumns |};
                      categorical :=
                        Some {| categories := Some [ sampleCategory categoryValues ];
                                values := Some [ sampleMeasure measures highlights0 ] |} |} ] |}.

(** categories = ["A","B","C"], values = [10, 20, 30]. *)
Definition abcOptions : VisualUpdateOptions unit :=
  sampleOptions [JSString "A"; JSString "B"; JSString "C"]
                [JSNumber 10; JSNumber 20; JSNumber 30] None.

(** The same rows in a highlight state: only the second row is highlighted. *)
Definition abcHighlighted : VisualUpdateOptions unit :=
  sampleOptions [JSString "A"; JSString "B"; JSString "C"]
                [JSNumber 10; JSNumber 20; JSNumber 30]
                (Some [JSNull; JSNumber 20; JSNull]).

(** No row at all: both arrays are empty. *)
Definition noRows : VisualUpdateOptions unit := sampleOptions [] [] None.

(** Two categories, one measure. *)
Definition moreCategories : VisualUpdateOptions unit :=
  sampleOptions [JSString "A"; JSString "B"] [JSNumber 10] None.

(** One category, two measures. *)
Definition moreMeasures : VisualUpdateOptions unit :=
  sampleOptions [JSString "A"] [JSNumber 10; JSNumber 20] None.

(** A categorical section whose [categories] array is empty and whose
    [values] are missing. *)
Definition noCategoryColumn : VisualUpdateOptions unit :=
  {| dataViews :=
       Some [ Some {| metadata := Some {| columns := sampleColumns |};
                      categorical := Some {| categories := Some []; values := None |} |} ] |}.

(** A categorical section whose [values] array is empty. *)
Definition noMeasureColumn : VisualUpdateOptions unit :=
  {| dataViews :=
       Some [ Some {| metadata := Some {| columns := sampleColumns |};
                      categorical :=
                        Some {| categories := Some [ sampleCategory [JSString "A"] ];
                                values := Some [] |} |} ] |}.

Definition sampleColour (key : PrimitiveValue) : string := "#01B8AA".

Definition sampleFill (objects : unit) (objectName propertyName : string) : option string := None.

Definition sampleSelectionId (categories0 : DataViewCategoryColumn unit) (i : nat) : string * nat :=
  (match cat_source categories0 with Some c => displayName c | None => "" end, i).

(** The sample inputs stay below 10^21, where [toFixed] never asks for
    [Number::toString]. *)
Definition sampleToString (x : float) : string := "".

Definition sampleBuild (options : VisualUpdateOptions unit) : completion (ViewModel (string * nat)) :=
  getViewModel sampleToString sampleColour sampleFill sampleSelectionId options.

(** The view models the sample host builds from [abcOptions] and
    [abcHighlighted]. *)
Definition abcViewModel : ViewModel (string * nat) :=
  Eval vm_compute in
    match sampleBuild abcOptions with Return vm => vm | TypeError => emptyViewModel end.

Definition abcHighlightedViewModel : ViewModel (string * nat) :=
  Eval vm_compute in
    match sampleBuild abcHighlighted with Return vm => vm | TypeError => emptyViewModel end.



(** * The visual's fields, [update], [updateSettings] and [enumerateObjectInstances]

    The methods of the class other than the builder, as far as they read and
    write the fields [settings] and [viewModel]; the other fields are handles
    of the drawing. A method takes the object before the call and gives the
    object after it together with its completion, so that what a throwing
    call leaves behind is part of the model. *)

Set Implicit Arguments.
Set Maximal Implicit Insertion.

Section VisualObject.

Variable Number_toString : float -> string.
Variable DataViewObjects : Type.
Variable ISelectionId : Type.
Variable getColor : PrimitiveValue -> string.
Variable getFillColor : DataViewObjects -> string -> string -> option string.
Variable createSelectionId : DataViewCategoryColumn DataViewObjects -> nat -> ISelectionId.

(** The host's selector of a selection id: [identity.getSelector()]. *)
Variable Selector : Type.
Variable getSelector : ISelectionId -> Selector.

(** [metadata.objects], the persisted formatting objects of the data view (a
    field of the metadata that the builder does not read). *)
Variable metadata_objects : DataViewMetadata -> option DataViewObjects.

(** [DataViewObjects.getValue(objects, {objectName, propertyName}, defaultValue)]
    of the data-view utilities, at a boolean property. *)
Variable getValue : option DataViewObjects -> string -> string -> bool -> bool.

(** ** The fields (lines 48-86) *)

Record Setting (A : Type) : Type := {
  setting_default : A;
  setting_value : A
}.

Record Settings : Type := {
  axis_x_padding : Setting float;
  axis_x_show : Setting bool;
  axis_y_padding : Setting float;
  axis_y_show : Setting bool;
  border_top : Setting float
}.

(** The initialiser of [settings] (lines 57-86). *)
Definition initialSettings : Settings :=
  {| axis_x_padding := {| setting_default := 50%float; setting_value := 50%float |};
     axis_x_show := {| setting_default := true; setting_value := true |};
     axis_y_padding := {| setting_default := 50%float; setting_value := 50%float |};
     axis_y_show := {| setting_default := true; setting_value := true |};
     border_top := {| setting_default := 10%float; setting_value := 10%float |} |}.

(** [viewModel] is [undefined] ([None]) until the first [update] stores one. *)
Record VisualFields : Type := {
  settings : Settings;
  viewModel : option (ViewModel ISelectionId)
}.

(** The fields after the constructor (lines 88-106), which assigns neither. *)
Definition constructed : VisualFields :=
  {| settings := initialSettings; viewModel := None |}.

(** ** [updateSettings] (lines 280-294) *)

(** [options.dataViews[0].metadata.objects]: no part of the path is tested,
    so the read throws when [dataViews], its first element or the [metadata]
    of that element is missing. *)
Definition metadataObjects (options : VisualUpdateOptions DataViewObjects)
  : completion (option DataViewObjects) :=
  match dataViews options with
  | None => TypeError
  | Some dv =>
      match nth_error dv 0 with
      | Some (Some dv0) =>
          match metadata dv0 with
          | Some metadata0 => Return (metadata_objects metadata0)
          | None => TypeError
          end
      | _ => TypeError
      end
  end.

(** [this.settings.axis.x.show.value = b] and the same for [y]. *)
Definition assign_x_show (this : VisualFields) (b : bool) : VisualFields :=
  let s := settings this in
  {| settings :=
       {| axis_x_padding := axis_x_padding s;
          axis_x_show := {| setting_default := setting_default (axis_x_show s);
                            setting_value := b |};
          axis_y_padding := axis_y_padding s;
          axis_y_show := axis_y_show s;
          border_top := border_top s |};
     viewModel := viewModel this |}.

Definition assign_y_show (this : VisualFields) (b : bool) : VisualFields :=
  let s := settings this in
  {| settings :=
       {| axis_x_padding := axis_x_padding s;
          axis_x_show := axis_x_show s;
          axis_y_padding := axis_y_padding s;
          axis_y_show := {| setting_default := setting_default (axis_y_show s);
                            setting_value := b |};
          border_top := border_top s |};
     viewModel := viewModel this |}.

(** The two assignments, in order; each right-hand side reads the metadata
    objects again before it calls [getValue]. *)
Definition updateSettings (options : VisualUpdateOptions DataViewObjects)
           (this : VisualFields) : VisualFields * completion unit :=
  match metadataObjects options with
  | TypeError => (this, TypeError)
  | Return objects =>
      let this1 :=
        assign_x_show this
          (getValue objects "xAxis" "show" (setting_default (axis_x_show (settings this)))) in
      match metadataObjects options with
      | TypeError => (this1, TypeError)
      | Return objects' =>
          (assign_y_show this1
             (getValue objects' "yAxis" "show"
                       (setting_default (axis_y_show (settings this1)))),
           Return tt)
      end
  end.

(** ** [update] (lines 150-278) *)

(** Lines 151-153, the statements of [update] that write the fields:
    [this.updateSettings(options)], then
    [this.viewModel = this.getViewModel(options)]. The statements after them
    draw; they read the fields and write none. *)
Definition updateFields (options : VisualUpdateOptions DataViewObjects)
           (this : VisualFields) : VisualFields * completion unit :=
  match updateSettings options this with
  | (this1, TypeError) => (this1, TypeError)
  | (this1, Return _) =>
      match getViewModel Number_toString getColor getFillColor createSelectionId options with
      | TypeError => (this1, TypeError)
      | Return vm => ({| settings := settings this1; viewModel := Some vm |}, Return tt)
      end
  end.

(** The fields the visual can have: after the constructor, and after any
    call of [update], returning or throwing. *)
Inductive reachable : VisualFields -> Prop :=
| reachable_constructed : reachable constructed
| reachable_update (options : VisualUpdateOptions DataViewObjects) (this : VisualFields) :
    reachable this -> reachable (fst (updateFields options this)).

(** Lines 158-159: the room kept for an axis, none when the axis is hidden. *)
Definition xAxisPadding (this : VisualFields) : float :=
  if setting_value (axis_x_show (settings this))
  then setting_value (axis_x_padding (settings this))
  else 0%float.

Definition yAxisPadding (this : VisualFields) : float :=
  if setting_value (axis_y_show (settings this))
  then setting_value (axis_y_padding (settings this))
  else 0%float.

(** Line 168, the range of the vertical scale:
    [[height - xAxisPadding, 0 + this.settings.border.top.value]]. *)
Definition yScaleRange (this : VisualFields) (height : float) : float * float :=
  ((height - xAxisPadding this)%float,
   (0 + setting_value (border_top (settings this)))%float).

(** Line 232, the opacity of a bar:
    [viewModel.highlights ? d.highlighted ? 1.0 : 0.5 : 1.0]. *)
Definition fillOpacity (vm : ViewModel ISelectionId) (d : DataPoint ISelectionId) : float :=
  if highlights vm then if highlighted d then 1%float else 0.5%float else 1%float.

(** ** [enumerateObjectInstances] (lines 108-148) *)

Inductive InstanceProperties : Type :=
| ShowProperty (show : bool)
| FillProperty (fill : string).

(** [displayName] and [selector]: [None] is an absent property and [null]. *)
Record VisualObjectInstance : Type := {
  inst_objectName : string;
  inst_displayName : option PrimitiveValue;
  inst_properties : InstanceProperties;
  inst_selector : option Selector
}.

(** The instance pushed for a data point (lines 134-141). *)
Definition dataColorInstance (objectName : string) (dp : DataPoint ISelectionId)
  : VisualObjectInstance :=
  {| inst_objectName := objectName;
     inst_displayName := Some (category dp);
     inst_properties := FillProperty (colour dp);
     inst_selector := Some (getSelector (identity dp)) |}.

(** The [switch] on [options.objectName]; no [default] case. *)
Definition enumerateObjectInstances (objectName : string) (this : VisualFields)
  : list VisualObjectInstance :=
  if String.eqb objectName "xAxis" then
    [ {| inst_objectName := objectName;
         inst_displayName := None;
         inst_properties := ShowProperty (setting_value (axis_x_show (settings this)));
         inst_selector := None |} ]
  else if String.eqb objectName "yAxis" then
    [ {| inst_objectName := objectName;
         inst_displayName := None;
         inst_properties := ShowProperty (setting_value (axis_y_show (settings this)));
         inst_selector := None |} ]
  else if String.eqb objectName "dataColors" then
    match viewModel this with
    | Some vm => map (dataColorInstance objectName) (dataPoints vm)
    | None => []
    end
  else [].

End VisualObject.

Arguments initialSettings : clear implicits.
Arguments constructed {ISelectionId}.

(** * The visual of [part_001]

    The same class without tooltips, average and colour overrides. Its
    builder stores the measure of a row as it reads it, without calling a
    method on it, and its guard does not test the metadata. *)

Module Legacy.

Section Visual.

Variable DataViewObjects : Type.
Variable ISelectionId : Type.
Variable getColor : PrimitiveValue -> string.
Variable createSelectionId : DataViewCategoryColumn DataViewObjects -> nat -> ISelectionId.

(** [d3.max(array, f)] over values that need not be numbers: how it orders
    strings, booleans, dates and numbers among each other is left open. *)
Variable d3_max : list PrimitiveValue -> PrimitiveValue.

(** [value] is whatever the value array holds at the row index, [undefined]
    past its end: the declared type [number] is not checked. *)
Record DataPoint : Type := {
  category : PrimitiveValue;
  value : PrimitiveValue;
  colour : string;
  identity : ISelectionId;
  highlighted : bool
}.

Record ViewModel : Type := {
  dataPoints : list DataPoint;
  maxValue : PrimitiveValue;
  highlights : bool
}.

(** The initial view model (lines 277-281 of [part_001]). *)
Definition emptyViewModel : ViewModel :=
  {| dataPoints := []; maxValue := JSNumber 0%float; highlights := false |}.

(** The guard (lines 283-289): as in the other version, without the test of
    the metadata. *)
Inductive checked : Type :=
| Rejected
| Accepted (categories0 : DataViewCategoryColumn DataViewObjects)
           (valueColumns : list DataViewValueColumn).

Definition inputCheck (options : VisualUpdateOptions DataViewObjects) : completion checked :=
  match dataViews options with
  | None => Return Rejected
  | Some dv =>
      match nth_error dv 0 with
      | None | Some None => Return Rejected
      | Some (Some dv0) =>
          match categorical dv0 with
          | None => Return Rejected
          | Some view =>
              match categories view with
              | None => Return Rejected
              | Some cats =>
                  match nth_error cats 0 with
                  | None => TypeError
                  | Some categories0 =>
                      match cat_source categories0 with
                      | None => Return Rejected
                      | Some _ =>
                          match values view with
                          | None => Return Rejected
                          | Some valueColumns => Return (Accepted categories0 valueColumns)
                          end
                      end
                  end
              end
          end
      end
  end.

(** The object literal pushed for row [i] (lines 297-305); nothing in it
    can throw. *)
Definition dataPoint (categories0 : DataViewCategoryColumn DataViewObjects)
           (values0 : DataViewValueColumn) (i : nat) : DataPoint :=
  {| category := at_index (cat_values categories0) i;
     value := at_index (val_values values0) i;
     colour := getColor (at_index (cat_values categories0) i);
     identity := createSelectionId categories0 i;
     highlighted := rowHighlighted (val_highlights values0) i |}.

(** [getViewModel] of [part_001] (lines 273-312). *)
Definition getViewModel (options : VisualUpdateOptions DataViewObjects) : completion ViewModel :=
  c <- inputCheck options ;;
  match c with
  | Rejected => Return emptyViewModel
  | Accepted categories0 valueColumns =>
      match nth_error valueColumns 0 with
      | None => TypeError
      | Some values0 =>
          let points := map (dataPoint categories0 values0)
                            (seq 0 (rowCount categories0 values0)) in
          Return {| dataPoints := points;
                    maxValue := d3_max (map value points);
                    highlights := (0 <? List.length (filter highlighted points))%nat |}
      end
  end.

End Visual.

End Legacy.

Unset Implicit Arguments.
Unset Maximal Implicit Insertion.

(** ** More sample inputs, and the rest of the sample host *)

(** No data views at all. *)
Definition noDataViews : VisualUpdateOptions unit := {| dataViews := None |}.

(** The sample host persists no formatting object, [getValue] then gives the
    default, and a selector is the selection id itself. *)
Definition sampleMetadataObjects (metadata0 : DataViewMetadata) : option unit := None.

Definition sampleGetValue (objects : option unit) (objectName propertyName : string)
           (defaultValue : bool) : bool := defaultValue.

Definition sampleSelector (id : string * nat) : string * nat := id.

Definition sampleUpdate (options : VisualUpdateOptions unit)
           (this : VisualFields (string * nat)) : VisualFields (string * nat) * completion unit :=
  updateFields sampleToString sampleColour sampleFill sampleSelectionId
               sampleMetadataObjects sampleGetValue options this.

(** In the sample, the maximum of the builder of [part_001] is the last
    measure. *)
Definition sampleMax (measures : list PrimitiveValue) : PrimitiveValue :=
  last measures JSUndefined.

(** The fields after the constructor and one [update] with [abcOptions]. *)
Definition abcFields : VisualFields (string * nat) :=
  Eval vm_compute in fst (sampleUpdate abcOptions constructed).

(** * Properties *)

(** ** Completions and loops *)

Lemma bind_Return {A B} (c : completion A) (k : A -> completion B) (b : B) :
  bind c k = Return b -> exists a, c = Return a /\ k a = Return b.
Proof.
  destruct c as [a|]; simpl; intros H; [exists a; auto | discriminate].
Qed.

Lemma forEach_Forall2 {A B} (body : A -> completion B) (l : list A) (r : list B) :
  forEach body l = Return r -> Forall2 (fun a b => body a = Return b) l r.
Proof.
  revert r; induction l as [|a l IH]; simpl; intros r H.
  - injection H as <-. constructor.
  - apply bind_Return in H as (b & Hb & H).
    apply bind_Return in H as (bs & Hbs & H).
    injection H as <-. constructor; auto.
Qed.

Lemma forEach_length {A B} (body : A -> completion B) (l : list A) (r : list B) :
  forEach body l = Return r -> List.length r = List.length l.
Proof.
  intros H. apply forEach_Forall2 in H. symmetry. eapply Forall2_length; eauto.
Qed.

Lemma forEach_nth_error {A B} (body : A -> completion B) (l : list A) (r : list B) :
  forEach body l = Return r ->
  forall i b, nth_error r i = Some b -> exists a, nth_error l i = Some a /\ body a = Return b.
Proof.
  intros H. apply forEach_Forall2 in H.
  induction H as [|a b l r Hab _ IH]; intros [|i] b' Hi; simpl in *; try discriminate.
  - injection Hi as <-. eauto.
  - eauto.
Qed.

Lemma forEach_Return {A B} (body : A -> completion B) (l : list A) :
  (forall a, In a l -> exists b, body a = Return b) -> exists r, forEach body l = Return r.
Proof.
  induction l as [|a l IH]; simpl; intros H; [eauto|].
  destruct (H a) as (b & ->); auto.
  destruct IH as (r & ->); simpl; eauto.
Qed.

Lemma forEach_TypeError {A B} (body : A -> completion B) (l : list A) (a : A) :
  In a l -> body a = TypeError -> forEach body l = TypeError.
Proof.
  induction l as [|a' l IH]; simpl; [tauto|].
  intros [->|Hin] Ha.
  - now rewrite Ha.
  - destruct (body a'); simpl; auto. now rewrite IH.
Qed.

(** ** Truthiness *)

Example falsy_values :
  map truthy [JSUndefined; JSNull; JSBoolean false; JSNumber 0; JSNumber (-0); JSNumber nan;
              JSString ""] = [false; false; false; false; false; false; false].
Proof. reflexivity. Qed.

Example truthy_values :
  map truthy [JSBoolean true; JSNumber 20; JSNumber (-1); JSString "0"; JSDate 0] =
  [true; true; true; true; true].
Proof. reflexivity. Qed.

(** ** The order of numbers

    [<=] and [<] on binary64 values other than NaN form a total preorder; the
    comparisons are read through their specification on [spec_float]. *)

Ltac order_cases :=
  repeat match goal with
  | |- context [Z.compare ?a ?b] => destruct (Z.compare_spec a b)
  | H : context [Z.compare ?a ?b] |- _ => destruct (Z.compare_spec a b)
  | |- context [Pos.compare_cont Eq ?a ?b] =>
      change (Pos.compare_cont Eq a b) with (Pos.compare a b)
  | H : context [Pos.compare_cont Eq ?a ?b] |- _ =>
      change (Pos.compare_cont Eq a b) with (Pos.compare a b) in H
  | |- context [Pos.compare ?a ?b] => destruct (Pos.compare_spec a b)
  | H : context [Pos.compare ?a ?b] |- _ => destruct (Pos.compare_spec a b)
  end; simpl in *; subst; try congruence; try lia.

Lemma SFleb_trans (x y z : spec_float) :
  SFleb x y = true -> SFleb y z = true -> SFleb x z = true.
Proof.
  unfold SFleb, SFcompare.
  destruct x as [[]|[]| |[] mx ex], y as [[]|[]| |[] my ey], z as [[]|[]| |[] mz ez];
    simpl; try congruence; order_cases.
Qed.

Lemma SFltb_SFleb (x y : spec_float) : SFltb x y = true -> SFleb x y = true.
Proof.
  unfold SFltb, SFleb. destruct (SFcompare x y) as [[]|]; congruence.
Qed.

Lemma SFleb_total (x y : spec_float) :
  SFleb x x = true -> SFleb y y = true -> SFltb x y = false -> SFleb y x = true.
Proof.
  unfold SFleb, SFltb, SFcompare.
  destruct x as [[]|[]| |[] mx ex], y as [[]|[]| |[] my ey];
    simpl; try congruence; order_cases.
Qed.

Lemma SFleb_SFeqb_refl (x : spec_float) : SFleb x x = SFeqb x x.
Proof.
  unfold SFleb, SFeqb. destruct (SFcompare x x) as [[]|] eqn:E; try reflexivity.
  exfalso. revert E. unfold SFcompare.
  destruct x as [[]|[]| |[] mx ex]; simpl; try congruence; order_cases.
Qed.

Lemma leb_refl_is_nan (x : float) : (x <=? x)%float = negb (is_nan x).
Proof.
  unfold is_nan. rewrite negb_involutive, leb_spec, eqb_spec. apply SFleb_SFeqb_refl.
Qed.

Lemma leb_trans (x y z : float) :
  (x <=? y)%float = true -> (y <=? z)%float = true -> (x <=? z)%float = true.
Proof. rewrite !leb_spec. apply SFleb_trans. Qed.

Lemma ltb_leb (x y : float) : (x <? y)%float = true -> (x <=? y)%float = true.
Proof. rewrite ltb_spec, leb_spec. apply SFltb_SFleb. Qed.

Lemma leb_total (x y : float) :
  is_nan x = false -> is_nan y = false -> (x <? y)%float = false -> (y <=? x)%float = true.
Proof.
  intros Hx Hy. pose proof (leb_refl_is_nan x) as Rx. pose proof (leb_refl_is_nan y) as Ry.
  rewrite Hx in Rx. rewrite Hy in Ry. revert Rx Ry.
  rewrite ltb_spec, !leb_spec. apply SFleb_total.
Qed.

Lemma ltb_is_nan (x y : float) : (x <? y)%float = true -> is_nan y = false.
Proof.
  intros H. unfold is_nan. rewrite eqb_spec. rewrite ltb_spec in H.
  rewrite <- SFleb_SFeqb_refl. revert H. unfold SFltb, SFleb, SFcompare.
  destruct (Prim2SF x) as [[]|[]| |[] mx ex], (Prim2SF y) as [[]|[]| |[] my ey];
    simpl; try congruence; order_cases.
Qed.

(** ** [d3.max] and [d3.sum] *)

Lemma d3_max_from_spec (l : list float) : forall a : float,
  is_nan a = false ->
  is_nan (d3_max_from a l) = false /\
  (d3_max_from a l = a \/ In (d3_max_from a l) l) /\
  (a <=? d3_max_from a l)%float = true /\
  (forall v, In v l -> is_nan v = false -> (v <=? d3_max_from a l)%float = true).
Proof.
  induction l as [|b l IH]; simpl; intros a Ha.
  - repeat split; auto; try tauto.
    rewrite leb_refl_is_nan, Ha. reflexivity.
  - destruct (a <? b)%float eqn:Hab.
    + destruct (IH b (ltb_is_nan _ _ Hab)) as (Hn & Hin & Hle & Hall).
      repeat split; auto.
      * destruct Hin as [->|Hin]; auto.
      * apply leb_trans with b; [apply ltb_leb; assumption | assumption].
      * intros v [<-|Hv] Hnv; auto.
    + destruct (IH a Ha) as (Hn & Hin & Hle & Hall).
      repeat split; auto.
      * destruct Hin as [->|Hin]; auto.
      * intros v [<-|Hv] Hnv; auto.
        apply leb_trans with a; [apply leb_total; assumption | assumption].
Qed.

(** What [d3.max] returns is one of the values, is not NaN, and is at least
    every value that is not NaN. *)
Lemma d3_max_values_Some (l : list float) (m : float) :
  d3_max_values l = Some m ->
  In m l /\ is_nan m = false /\
  (forall v, In v l -> is_nan v = false -> (v <=? m)%float = true).
Proof.
  induction l as [|b l IH]; simpl; [discriminate|].
  rewrite leb_refl_is_nan. destruct (is_nan b) eqn:Hb; simpl; intros H.
  - destruct (IH H) as (Hin & Hn & Hall). repeat split; auto.
    intros v [<-|Hv] Hnv; [congruence | auto].
  - injection H as <-.
    destruct (d3_max_from_spec l b Hb) as (Hn & Hin & Hle & Hall).
    repeat split; auto.
    + destruct Hin as [->|Hin]; auto.
    + intros v [<-|Hv] Hnv; auto.
Qed.

(** [d3.max] returns [undefined] exactly when no value is a number other than
    NaN: in particular on an empty array. *)
Lemma d3_max_values_None (l : list float) :
  d3_max_values l = None <-> Forall (fun v => is_nan v = true) l.
Proof.
  induction l as [|b l IH]; simpl.
  - split; auto.
  - rewrite leb_refl_is_nan. destruct (is_nan b) eqn:Hb; simpl.
    + rewrite IH. split; intros H; [constructor; auto | now inversion H].
    + split; [discriminate|]. intros H. inversion H. congruence.
Qed.

(** Without NaN among the values, [d3.sum] is the sum from left to right. *)
Lemma d3_sum_values_plain (l : list float) :
  Forall (fun v => is_nan v = false) l ->
  d3_sum_values l = fold_left add l 0%float.
Proof.
  unfold d3_sum_values. generalize 0%float.
  induction l as [|a l IH]; simpl; intros s H; [reflexivity|].
  inversion H as [|? ? Ha Hl]; subst. rewrite Ha. auto.
Qed.

(** ** [toFixed]

    Below 10^21 the result has exactly [fractionDigits] characters after the
    point; a few values show the rounding (ties go up in magnitude). *)

Lemma length_append (s t : string) :
  String.length (s ++ t) = String.length s + String.length t.
Proof. induction s as [|c s IH]; simpl; [reflexivity | now rewrite IH]. Qed.

Lemma length_zeros (n : nat) : String.length (zeros n) = n.
Proof. induction n as [|n IH]; simpl; [reflexivity | now rewrite IH]. Qed.

Lemma length_substring (s : string) : forall n m,
  n + m <= String.length s -> String.length (substring n m s) = m.
Proof.
  induction s as [|c s IH]; intros [|n] [|m]; simpl; intros H; try lia; try reflexivity.
  - rewrite IH; lia.
  - apply IH. lia.
  - apply IH. lia.
Qed.

Lemma fixed_digits_fraction (n : Z) (f : nat) :
  f <> 0 ->
  exists whole fraction,
    fixed_digits n f = whole ++ "." ++ fraction /\ String.length fraction = f.
Proof.
  intros Hf. unfold fixed_digits.
  set (m := if (String.length (decimal n) <=? f)%nat then _ else _).
  assert (Hm : f < String.length m).
  { unfold m. destruct (Nat.leb_spec (String.length (decimal n)) f); [|assumption].
    rewrite length_append, length_zeros. lia. }
  destruct (Nat.eqb_spec f 0); [contradiction|].
  do 2 eexists. split; [reflexivity|]. apply length_substring. lia.
Qed.

Lemma toFixed_fraction (Number_toString : float -> string) (x : float) (f : nat) :
  f <> 0 -> is_nan x = false -> is_infinity x = false -> (1e21 <=? abs x)%float = false ->
  exists sign whole fraction,
    toFixed Number_toString x f = sign ++ whole ++ "." ++ fraction /\
    String.length fraction = f.
Proof.
  intros Hf Hnan Hinf Hbig. unfold toFixed. rewrite Hbig.
  assert (H : (exists s, Prim2SF x = S754_zero s) \/
              (exists s m e, Prim2SF x = S754_finite s m e)).
  { unfold Prim2SF. rewrite Hnan, Hinf. destruct (is_zero x); [eauto|].
    destruct (Z.frexp x) as [r ex]. destruct (shr_fexp _ _ _ _ _) as [shr e'].
    destruct (shr_m shr); eauto. }
  destruct H as [(s & ->) | (s & m & e & ->)].
  - destruct (fixed_digits_fraction 0 f Hf) as (w & fr & -> & Hl). exists "", w, fr. auto.
  - destruct (fixed_digits_fraction (scaled_nearest m e f) f Hf) as (w & fr & -> & Hl).
    exists (if s then "-" else ""), w, fr. auto.
Qed.

Example toFixed_samples (Number_toString : float -> string) :
  map (fun x => toFixed Number_toString x 2)
      [10; -10; 0; -0; 0.125; 2.5; 0x1.0147ae147ae14p+0; 1e20; nan; neg_infinity]%float =
  ["10.00"; "-10.00"; "0.00"; "0.00"; "0.13"; "2.50"; "1.00";
   "100000000000000000000.00"; "NaN"; "-Infinity"].
Proof. vm_compute. reflexivity. Qed.

(** ** The builder *)

Section Properties.

Variable Number_toString : float -> string.
Context {DataViewObjects ISelectionId : Type}.
Variable getColor : PrimitiveValue -> string.
Variable getFillColor : DataViewObjects -> string -> string -> option string.
Variable createSelectionId : DataViewCategoryColumn DataViewObjects -> nat -> ISelectionId.

Local Abbreviation build :=
  (getViewModel Number_toString getColor getFillColor createSelectionId).
Local Abbreviation point :=
  (dataPoint Number_toString getColor getFillColor createSelectionId).
Local Abbreviation summary := (summarise (ISelectionId := ISelectionId) Number_toString).

(** The two ways [getViewModel] returns: the guard rejects the input and the
    initial view model is returned, or the input is accepted, both column
    names are found, every row yields a data point and the summary of the
    points is returned. *)
Lemma getViewModel_Return (options : VisualUpdateOptions DataViewObjects)
      (vm : ViewModel ISelectionId) :
  build options = Return vm ->
  (inputCheck options = Return Rejected /\ vm = emptyViewModel) \/
  (exists view categories0 valueColumns metadata0 values0 categoryColumnName valueColumnName points,
      inputCheck options = Return (Accepted view categories0 valueColumns metadata0) /\
      nth_error valueColumns 0 = Some values0 /\
      columnName metadata0 "category" = Return categoryColumnName /\
      columnName metadata0 "measure" = Return valueColumnName /\
      forEach (point categories0 values0 categoryColumnName valueColumnName)
              (seq 0 (rowCount categories0 values0)) = Return points /\
      vm = summary points).
Proof.
  unfold getViewModel. intros H.
  apply bind_Return in H as ([|view c vs md] & Hc & H).
  - left. injection H as <-. auto.
  - right. destruct (nth_error vs 0) as [v0|] eqn:Hv0; [|discriminate].
    apply bind_Return in H as (cn & Hcn & H).
    apply bind_Return in H as (vn & Hvn & H).
    apply bind_Return in H as (pts & Hpts & H).
    injection H as <-.
    exists view, c, vs, md, v0, cn, vn, pts. auto 10.
Qed.

(** An accepted input determines its first category and measure columns. *)
Lemma accepted_unique (options : VisualUpdateOptions DataViewObjects)
      (c c' : DataViewCategoryColumn DataViewObjects) (v v' : DataViewValueColumn)
      (md md' : DataViewMetadata) :
  accepted options c v md -> accepted options c' v' md' -> c = c' /\ v = v' /\ md = md'.
Proof.
  intros (view & vs & H & Hv) (view' & vs' & H' & Hv').
  rewrite H in H'. injection H' as -> -> -> ->.
  rewrite Hv in Hv'. injection Hv' as ->. auto.
Qed.

(** On an accepted input, a returned view model is the summary of one data
    point per row index below [rowCount]. *)
Lemma getViewModel_accepted (options : VisualUpdateOptions DataViewObjects)
      (categories0 : DataViewCategoryColumn DataViewObjects) (values0 : DataViewValueColumn)
      (metadata0 : DataViewMetadata) (vm : ViewModel ISelectionId) :
  accepted options categories0 values0 metadata0 ->
  build options = Return vm ->
  exists categoryColumnName valueColumnName points,
    columnName metadata0 "category" = Return categoryColumnName /\
    columnName metadata0 "measure" = Return valueColumnName /\
    vm = summary points /\
    List.length points = rowCount categories0 values0 /\
    (forall i dp, nth_error points i = Some dp ->
                  point categories0 values0 categoryColumnName valueColumnName i = Return dp).
Proof.
  intros (view & vs & Hc & Hv) H.
  apply getViewModel_Return in H
    as [[Hr _] | (view' & c & vs' & md' & v0 & cn & vn & pts & Hc' & Hv' & Hcn & Hvn & Hpts & ->)].
  - rewrite Hc in Hr. discriminate.
  - rewrite Hc in Hc'. injection Hc' as <- <- <- <-.
    rewrite Hv in Hv'. injection Hv' as <-.
    exists cn, vn, pts. repeat split; auto.
    + apply forEach_length in Hpts. now rewrite Hpts, length_seq.
    + intros i dp Hi.
      destruct (forEach_nth_error _ _ _ Hpts i dp Hi) as (a & Ha & Hdp).
      rewrite nth_error_seq in Ha.
      destruct (i <? rowCount categories0 values0)%nat; [|discriminate].
      injection Ha as <-. exact Hdp.
Qed.

(** The fields of a data point as the first loop builds it. *)
Lemma dataPoint_Return (categories0 : DataViewCategoryColumn DataViewObjects)
      (values0 : DataViewValueColumn) (categoryColumnName valueColumnName : string)
      (i : nat) (dp : DataPoint ISelectionId) :
  point categories0 values0 categoryColumnName valueColumnName i = Return dp ->
  at_index (val_values values0) i = JSNumber (value dp) /\
  category dp = at_index (cat_values categories0) i /\
  identity dp = createSelectionId categories0 i /\
  highlighted dp = rowHighlighted (val_highlights values0) i /\
  tooltips dp =
    [ {| tip_displayName := categoryColumnName; tip_value := category dp |};
      {| tip_displayName := valueColumnName;
         tip_value := JSString (toFixed Number_toString (value dp) 2) |} ].
Proof.
  unfold dataPoint. intros H.
  apply bind_Return in H as (x & Hx & H). injection H as <-. simpl.
  destruct (at_index (val_values values0) i); try discriminate.
  injection Hx as ->. auto.
Qed.

(** The second and third loops keep every field of a data point but
    [tooltips], to which they append the deviation entries. *)
Lemma summarise_nth_error (points : list (DataPoint ISelectionId)) (i : nat)
      (dp' : DataPoint ISelectionId) :
  nth_error (dataPoints (summary points)) i = Some dp' ->
  exists dp,
    nth_error points i = Some dp /\
    category dp' = category dp /\ value dp' = value dp /\ colour dp' = colour dp /\
    identity dp' = identity dp /\ highlighted dp' = highlighted dp /\
    tooltips dp' =
      (tooltips dp ++
       deviationAbs Number_toString (average (summary points)) dp ::
       (if negb (average (summary points) =? 0)%float
        then [deviationPercent Number_toString (average (summary points)) dp]
        else []))%list.
Proof.
  unfold summarise at 1. simpl average.
  set (avg := if (0 <? List.length points)%nat then _ else _).
  simpl dataPoints. intros H.
  destruct (negb (avg =? 0)%float).
  - rewrite map_map, nth_error_map in H.
    destruct (nth_error points i) as [dp|]; [|discriminate].
    injection H as <-. exists dp. simpl. rewrite <- app_assoc. auto 10.
  - rewrite nth_error_map in H.
    destruct (nth_error points i) as [dp|]; [|discriminate].
    injection H as <-. exists dp. simpl. auto 10.
Qed.

Lemma summarise_length (points : list (DataPoint ISelectionId)) :
  List.length (dataPoints (summary points)) = List.length points.
Proof.
  unfold summarise. simpl. destruct (negb _); now rewrite ?length_map.
Qed.

Lemma summarise_map {B} (field : DataPoint ISelectionId -> B)
      (points : list (DataPoint ISelectionId)) :
  (forall item dp, field (pushTooltip item dp) = field dp) ->
  map field (dataPoints (summary points)) = map field points.
Proof.
  intros Hf. unfold summarise. simpl.
  destruct (negb _); rewrite ?map_map; apply map_ext; intros dp; now rewrite ?Hf.
Qed.

(** *** Summary statistics *)

Lemma filter_nonempty {A} (f : A -> bool) (l : list A) :
  (0 <? List.length (filter f l))%nat = true <-> In true (map f l).
Proof.
  induction l as [|a l IH]; simpl.
  - split; [discriminate | tauto].
  - destruct (f a) eqn:Ha; simpl.
    + split; auto.
    + rewrite IH. split; auto. intros [H|H]; [discriminate | auto].
Qed.

Lemma In_map_true {A} (f : A -> bool) (l : list A) :
  In true (map f l) <-> exists a, In a l /\ f a = true.
Proof.
  rewrite in_map_iff. split; intros (a & H1 & H2); eauto.
Qed.



(** C6. The [highlights] flag of a returned view model is true exactly when
    some data point is highlighted. *)
Theorem highlights_iff_some_highlighted (options : VisualUpdateOptions DataViewObjects)
        (vm : ViewModel ISelectionId) :
  build options = Return vm ->
  (highlights vm = true <-> exists dp, In dp (dataPoints vm) /\ highlighted dp = true).
Proof.
  intros H.
  apply getViewModel_Return in H as [[_ ->] | (? & ? & ? & ? & ? & ? & ? & pts & _ & _ & _ & _ & _ & ->)].
  - simpl. split; [discriminate | intros (dp & [] & _)].
  - rewrite <- In_map_true, (summarise_map highlighted) by reflexivity.
    unfold summarise; simpl highlights. apply filter_nonempty.
Qed.

(** *** Data points *)

(** C10. On an accepted input, the [highlighted] field of the data point of
    row [i] is the boolean [true] when the measure column has a [highlights]
    array whose entry [i] is truthy, and the boolean [false] otherwise
    (no array, or an entry that is null, zero, NaN, empty, false or
    undefined). *)
Theorem highlighted_strict_boolean (options : VisualUpdateOptions DataViewObjects)
        (categories0 : DataViewCategoryColumn DataViewObjects) (values0 : DataViewValueColumn)
        (metadata0 : DataViewMetadata) (vm : ViewModel ISelectionId) :
  accepted options categories0 values0 metadata0 ->
  build options = Return vm ->
  forall i dp, nth_error (dataPoints vm) i = Some dp ->
    highlighted dp =
      match val_highlights values0 with
      | Some hs => truthy (at_index hs i)
      | None => false
      end.
Proof.
  intros Ha H i dp' Hi.
  destruct (getViewModel_accepted _ _ _ _ _ Ha H) as (cn & vn & pts & Hcn & Hvn & Hvm & Hlen & Hpts).
  subst vm.
  apply summarise_nth_error in Hi as (dp & Hdp & _ & _ & _ & _ & -> & _).
  apply Hpts in Hdp. apply dataPoint_Return in Hdp as (_ & _ & _ & Hh & _).
  rewrite Hh. unfold rowHighlighted. destruct (val_highlights values0) as [hs|]; [|reflexivity].
  now destruct (truthy (at_index hs i)).
Qed.

(** C5. In a returned view model every data point's tooltip list is: the
    category entry, the measure entry, the absolute deviation (value minus
    average, through [toFixed(2)]), and then the percent deviation
    (100 * (value - average) / average, through [toFixed(2)], followed by a
    percent sign) exactly when [average !== 0]. *)
Theorem deviation_tooltips (options : VisualUpdateOptions DataViewObjects)
        (vm : ViewModel ISelectionId) :
  build options = Return vm ->
  exists categoryColumnName valueColumnName,
  forall dp, In dp (dataPoints vm) ->
    tooltips dp =
      ([ {| tip_displayName := categoryColumnName; tip_value := category dp |};
         {| tip_displayName := valueColumnName;
            tip_value := JSString (toFixed Number_toString (value dp) 2) |};
         {| tip_displayName := "Deviation (abs)";
            tip_value := JSString (toFixed Number_toString (value dp - average vm) 2) |} ] ++
       (if negb (average vm =? 0)%float
        then [ {| tip_displayName := "Deviation (%)";
                  tip_value :=
                    JSString (toFixed Number_toString
                                      (100 * (value dp - average vm) / average vm) 2 ++ "%") |} ]
        else []))%list.
Proof.
  intros H.
  apply getViewModel_Return in H
    as [[_ ->] | (? & c & ? & ? & v & cn & vn & pts & _ & _ & _ & _ & Hpts & ->)].
  - exists "", "". intros dp [].
  - exists cn, vn. intros dp' Hin.
    apply In_nth_error in Hin as (i & Hi).
    apply summarise_nth_error in Hi as (dp & Hdp & Hc & Hv & _ & _ & _ & ->).
    destruct (forEach_nth_error _ _ _ Hpts i dp Hdp) as (a & _ & Ha).
    apply dataPoint_Return in Ha as (_ & _ & _ & _ & ->).
    rewrite Hc, Hv. unfold deviationAbs, deviationPercent. reflexivity.
Qed.

(** The selection id of row [i] is the one the host builds from the category
    column and [i]: nothing else of the input enters it. *)
Lemma identity_of_row (options : VisualUpdateOptions DataViewObjects)
      (categories0 : DataViewCategoryColumn DataViewObjects) (values0 : DataViewValueColumn)
      (metadata0 : DataViewMetadata) (vm : ViewModel ISelectionId) :
  accepted options categories0 values0 metadata0 ->
  build options = Return vm ->
  forall i dp, nth_error (dataPoints vm) i = Some dp ->
    identity dp = createSelectionId categories0 i.
Proof.
  intros Ha H i dp' Hi.
  destruct (getViewModel_accepted _ _ _ _ _ Ha H) as (cn & vn & pts & Hcn & Hvn & Hvm & Hlen & Hpts).
  subst vm.
  apply summarise_nth_error in Hi as (dp & Hdp & _ & _ & _ & Hid & _).
  apply Hpts in Hdp. apply dataPoint_Return in Hdp as (_ & _ & Hi' & _).
  congruence.
Qed.

(** *** Row count *)

Lemma hasRole_forEach (role : string) (cols : list DataViewMetadataColumn) :
  forallb (fun c => match roles c with Some _ => true | None => false end) cols = true ->
  forEach (hasRole role) cols =
    Return (map (fun c => match roles c with
                          | Some r => match lookup role r with Some b => b | None => false end
                          | None => false
                          end) cols).
Proof.
  induction cols as [|c cols IH]; simpl; [reflexivity|].
  intros H. apply andb_true_iff in H as [Hc H].
  unfold hasRole at 1. destruct (roles c) as [r|]; [|discriminate].
  simpl. rewrite IH by assumption. reflexivity.
Qed.

(** [columnName] finds a display name when the metadata declares the role. *)
Lemma columnName_Return (metadata0 : DataViewMetadata) (role : string) :
  declaresRole metadata0 role = true -> exists name, columnName metadata0 role = Return name.
Proof.
  unfold declaresRole, columnName. intros H. apply andb_true_iff in H as [Hall Hex].
  rewrite hasRole_forEach by assumption. simpl. clear Hall.
  induction (columns metadata0) as [|c cols IH]; simpl in *; [discriminate|].
  destruct (match roles c with Some r => _ | None => false end); simpl in *; eauto.
Qed.

Lemma numericRows_point (categories0 : DataViewCategoryColumn DataViewObjects)
      (values0 : DataViewValueColumn) (categoryColumnName valueColumnName : string) (i : nat) :
  numericRows categories0 values0 = true ->
  i < rowCount categories0 values0 ->
  exists dp, point categories0 values0 categoryColumnName valueColumnName i = Return dp.
Proof.
  unfold numericRows. rewrite forallb_forall. intros H Hi.
  specialize (H i). rewrite in_seq in H. specialize (H ltac:(lia)).
  unfold dataPoint. destruct (at_index (val_values values0) i); try discriminate.
  simpl. eauto.
Qed.

Lemma hasRole_forEach_Return (role : string) (cols : list DataViewMetadataColumn)
      (flags : list bool) :
  forEach (hasRole role) cols = Return flags ->
  forallb (fun c => match roles c with Some _ => true | None => false end) cols = true /\
  flags = map (fun c => match roles c with
                        | Some r => match lookup role r with Some b => b | None => false end
                        | None => false
                        end) cols.
Proof.
  intros H. apply forEach_Forall2 in H.
  induction H as [|c b cols flags Hc _ [IH1 IH2]]; simpl; [auto|].
  unfold hasRole in Hc. destruct (roles c) as [r|]; [|discriminate].
  injection Hc as <-. rewrite IH1, IH2. auto.
Qed.

(** [columnName] returns only when the metadata declares the role. *)
Lemma columnName_declaresRole (metadata0 : DataViewMetadata) (role name : string) :
  columnName metadata0 role = Return name -> declaresRole metadata0 role = true.
Proof.
  unfold columnName, declaresRole. intros H.
  apply bind_Return in H as (flags & Hflags & H).
  apply hasRole_forEach_Return in Hflags as [Hall ->]. rewrite Hall. simpl.
  clear Hall. induction (columns metadata0) as [|c cols IH]; simpl in *; [discriminate|].
  destruct (match roles c with Some r => _ | None => false end); simpl in *; auto.
Qed.

(** The well-formed inputs are exactly the accepted inputs on which the
    builder returns. *)
Lemma returned_is_wellFormed (options : VisualUpdateOptions DataViewObjects)
      (categories0 : DataViewCategoryColumn DataViewObjects) (values0 : DataViewValueColumn)
      (metadata0 : DataViewMetadata) (vm : ViewModel ISelectionId) :
  accepted options categories0 values0 metadata0 ->
  build options = Return vm ->
  wellFormed options categories0 values0.
Proof.
  intros Ha H.
  destruct (getViewModel_accepted _ _ _ _ _ Ha H) as (cn & vn & pts & Hcn & Hvn & _ & Hlen & Hpts).
  exists metadata0. split; [assumption|].
  split; [eapply columnName_declaresRole; eassumption|].
  split; [eapply columnName_declaresRole; eassumption|].
  unfold numericRows. apply forallb_forall. intros i Hi. apply in_seq in Hi.
  destruct (nth_error pts i) as [dp|] eqn:Hdp.
  - apply Hpts, dataPoint_Return in Hdp as (-> & _). reflexivity.
  - apply nth_error_None in Hdp. lia.
Qed.

(** On a well-formed input the builder returns a view model with as many
    data points as the longer array has entries, the one at index [i] built
    from entry [i] of both arrays. (A well-formed input has a number in every
    row, so its value array is the longer one.) *)
Theorem dataPoints_length (options : VisualUpdateOptions DataViewObjects)
        (categories0 : DataViewCategoryColumn DataViewObjects) (values0 : DataViewValueColumn) :
  wellFormed options categories0 values0 ->
  exists vm,
    build options = Return vm /\
    List.length (dataPoints vm) =
      Nat.max (List.length (cat_values categories0)) (List.length (val_values values0)) /\
    (forall i dp, nth_error (dataPoints vm) i = Some dp ->
       category dp = at_index (cat_values categories0) i /\
       JSNumber (value dp) = at_index (val_values values0) i).
Proof.
  intros (md & (view & vs & Hc & Hv) & Hcat & Hmeas & Hnum).
  destruct (columnName_Return _ _ Hcat) as (cn & Hcn).
  destruct (columnName_Return _ _ Hmeas) as (vn & Hvn).
  destruct (forEach_Return (point categories0 values0 cn vn)
                           (seq 0 (rowCount categories0 values0))) as (pts & Hpts).
  { intros i Hi. apply in_seq in Hi. apply numericRows_point; [assumption | lia]. }
  assert (Hb : build options = Return (summary pts)).
  { unfold getViewModel. rewrite Hc. cbn [bind]. rewrite Hv, Hcn. cbn [bind].
    rewrite Hvn. cbn [bind]. cbv zeta. rewrite Hpts. reflexivity. }
  exists (summary pts). split; [exact Hb|]. split.
  - rewrite summarise_length. apply forEach_length in Hpts. now rewrite Hpts, length_seq.
  - intros i dp' Hi.
    apply summarise_nth_error in Hi as (dp & Hdp & -> & -> & _).
    destruct (forEach_nth_error _ _ _ Hpts i dp Hdp) as (a & Ha & Hp).
    rewrite nth_error_seq in Ha.
    destruct (i <? rowCount categories0 values0)%nat; [|discriminate].
    injection Ha as <-. apply dataPoint_Return in Hp as (-> & -> & _). auto.
Qed.

(** *** The guard *)

(** A rejected input gives the initial view model. *)
Lemma rejected_gives_empty (options : VisualUpdateOptions DataViewObjects) :
  inputCheck options = Return Rejected -> build options = Return emptyViewModel.
Proof.
  intros H. unfold getViewModel. now rewrite H.
Qed.

(** The guard throws exactly when the [categories] array is there and empty,
    whatever the rest of the categorical section and the metadata are. *)
Lemma inputCheck_TypeError (options : VisualUpdateOptions DataViewObjects) :
  inputCheck options = TypeError <->
  exists dv dv0 view,
    dataViews options = Some dv /\ nth_error dv 0 = Some (Some dv0) /\
    categorical dv0 = Some view /\ categories view = Some [].
Proof.
  unfold inputCheck. split.
  - destruct (dataViews options) as [dv|]; [|discriminate].
    destruct (nth_error dv 0) as [[dv0|]|] eqn:Hdv; try discriminate.
    destruct (categorical dv0) as [view|] eqn:Hview; [|discriminate].
    destruct (categories view) as [[|c0 cats]|] eqn:Hcats; simpl; try discriminate.
    + intros _. exists dv, dv0, view. auto.
    + destruct (cat_source c0), (values view), (metadata dv0); discriminate.
  - intros (dv & dv0 & view & -> & -> & -> & ->). reflexivity.
Qed.

(** *** Rows without a measure *)

(** An accepted input whose category array is longer than its value array
    makes the builder throw: the measure read past the end of the value
    array is [undefined], which has no [toFixed]. *)
Lemma more_categories_TypeError (options : VisualUpdateOptions DataViewObjects)
      (categories0 : DataViewCategoryColumn DataViewObjects) (values0 : DataViewValueColumn)
      (metadata0 : DataViewMetadata) :
  accepted options categories0 values0 metadata0 ->
  List.length (val_values values0) < List.length (cat_values categories0) ->
  build options = TypeError.
Proof.
  intros (view & vs & Hc & Hv) Hlen.
  unfold getViewModel. rewrite Hc. cbn [bind]. rewrite Hv.
  destruct (columnName metadata0 "category") as [cn|]; [|reflexivity].
  destruct (columnName metadata0 "measure") as [vn|]; [|reflexivity].
  cbn [bind]. cbv zeta.
  rewrite (forEach_TypeError _ _ (List.length (val_values values0))); [reflexivity| |].
  - apply in_seq. unfold rowCount. lia.
  - unfold dataPoint, at_index. now rewrite (nth_overflow (val_values values0)).
Qed.

(** *** The maximum *)

(** On an accepted input [maxValue] is [undefined] exactly when no data point
    has a value other than NaN, so in particular when there is no row; and a
    defined [maxValue] is the value of some data point and is at least every
    value that is not NaN. *)
Lemma maxValue_is_maximum (options : VisualUpdateOptions DataViewObjects)
      (categories0 : DataViewCategoryColumn DataViewObjects) (values0 : DataViewValueColumn)
      (metadata0 : DataViewMetadata) (vm : ViewModel ISelectionId) :
  accepted options categories0 values0 metadata0 ->
  build options = Return vm ->
  (maxValue vm = None <-> Forall (fun x => is_nan x = true) (map value (dataPoints vm))) /\
  (forall m, maxValue vm = Some m ->
     (exists dp, In dp (dataPoints vm) /\ value dp = m) /\
     (forall dp, In dp (dataPoints vm) -> is_nan (value dp) = false ->
                 (value dp <=? m)%float = true)).
Proof.
  intros Ha H.
  destruct (getViewModel_accepted _ _ _ _ _ Ha H) as (cn & vn & pts & _ & _ & Hvm & _ & _).
  subst vm. rewrite (summarise_map value) by reflexivity.
  assert (Hmax : maxValue (summary pts) = d3_max_values (map value pts)) by reflexivity.
  rewrite Hmax. split; [apply d3_max_values_None|].
  intros m Hm. apply d3_max_values_Some in Hm as (Hin & _ & Hall).
  rewrite <- (summarise_map value pts) in Hin, Hall by reflexivity. split.
  - apply in_map_iff in Hin as (dp & Hdp & Hin). eauto.
  - intros dp Hdp Hnan. apply Hall; [now apply in_map | assumption].
Qed.

End Properties.

(** ** Worked examples *)

Section Examples.

Variable Number_toString : float -> string.
Context {ISelectionId : Type}.
Variable getColor : PrimitiveValue -> string.
Variable getFillColor : unit -> string -> string -> option string.
Variable createSelectionId : DataViewCategoryColumn unit -> nat -> ISelectionId.

Local Abbreviation build :=
  (getViewModel Number_toString getColor getFillColor createSelectionId).

(** C1. With any host, the input [noCategoryColumn] (the [categories] array is
    empty and the [values] are missing) makes the builder throw: the guard
    reads [categories[0].source] before it tests [values]. *)
Theorem empty_categories_throw : build noCategoryColumn = TypeError.
Proof. reflexivity. Qed.

(** An accepted input whose [values] array is empty throws as well, at
    [values.highlights]. *)
Lemma empty_values_throw : build noMeasureColumn = TypeError.
Proof. reflexivity. Qed.

(** C2. With any host, the accepted input [noRows] (both arrays empty) gives
    a view model without data points whose [maxValue] is [undefined], not 0. *)
Theorem no_rows_maxValue_undefined :
  build noRows =
    Return {| dataPoints := []; maxValue := None; highlights := false; average := 0%float |}.
Proof. reflexivity. Qed.

(** C7. With any host, the input [moreCategories] (two categories, one
    measure) makes the builder throw. *)
Theorem more_categories_throw : build moreCategories = TypeError.
Proof. reflexivity. Qed.

(** C4. With any host, for the input [moreCategories] the longer of the two
    arrays has 2 entries, and the builder throws: it returns no view model,
    so no list of 2 data points. *)
Theorem more_categories_no_data_points :
  Nat.max (List.length (cat_values (sampleCategory [JSString "A"; JSString "B"])))
          (List.length (val_values (sampleMeasure [JSNumber 10] None))) = 2 /\
  build moreCategories = TypeError.
Proof. split; reflexivity. Qed.

(** The other mismatch is handled: with two measures and one category the
    second data point has the category [undefined]. *)
Lemma more_measures_return :
  exists vm, build moreMeasures = Return vm /\
             map category (dataPoints vm) = [JSString "A"; JSUndefined] /\
             map value (dataPoints vm) = [10; 20]%float.
Proof. eexists. split; [vm_compute; reflexivity|]. split; reflexivity. Qed.

(** C8. With any host, categories = ["A","B","C"] and values = [10, 20, 30]
    give maxValue = 30, average = 20, the deviations -10, 0, 10 (shown as
    "-10.00", "0.00", "10.00") and the percent deviations -50, 0, 50 (shown as
    "-50.00%", "0.00%", "50.00%"). *)
Theorem abc_example :
  exists vm,
    build abcOptions = Return vm /\
    maxValue vm = Some 30%float /\
    average vm = 20%float /\
    map (fun dp => (value dp - average vm)%float) (dataPoints vm) = [-10; 0; 10]%float /\
    map (fun dp => (100 * (value dp - average vm) / average vm)%float) (dataPoints vm)
      = [-50; 0; 50]%float /\
    map (fun dp => nth_error (tooltips dp) 2) (dataPoints vm) =
      [ Some {| tip_displayName := "Deviation (abs)"; tip_value := JSString "-10.00" |};
        Some {| tip_displayName := "Deviation (abs)"; tip_value := JSString "0.00" |};
        Some {| tip_displayName := "Deviation (abs)"; tip_value := JSString "10.00" |} ] /\
    map (fun dp => nth_error (tooltips dp) 3) (dataPoints vm) =
      [ Some {| tip_displayName := "Deviation (%)"; tip_value := JSString "-50.00%" |};
        Some {| tip_displayName := "Deviation (%)"; tip_value := JSString "0.00%" |};
        Some {| tip_displayName := "Deviation (%)"; tip_value := JSString "50.00%" |} ].
Proof.
  eexists. split; [vm_compute; reflexivity|].
  repeat split; vm_compute; reflexivity.
Qed.

End Examples.

(** ** The general theorems at the sample inputs *)

Lemma abcOptions_accepted :
  accepted abcOptions
           (sampleCategory [JSString "A"; JSString "B"; JSString "C"])
           (sampleMeasure [JSNumber 10; JSNumber 20; JSNumber 30] None)
           {| columns := sampleColumns |}.
Proof. do 2 eexists. split; reflexivity. Defined.

Lemma abcHighlighted_accepted :
  accepted abcHighlighted
           (sampleCategory [JSString "A"; JSString "B"; JSString "C"])
           (sampleMeasure [JSNumber 10; JSNumber 20; JSNumber 30]
                          (Some [JSNull; JSNumber 20; JSNull]))
           {| columns := sampleColumns |}.
Proof. do 2 eexists. split; reflexivity. Defined.

Lemma abcOptions_build : sampleBuild abcOptions = Return abcViewModel.
Proof. vm_compute. reflexivity. Defined.

Lemma abcHighlighted_build : sampleBuild abcHighlighted = Return abcHighlightedViewModel.
Proof. vm_compute. reflexivity. Defined.




Lemma highlights_iff_some_highlighted_witness :
  sampleBuild abcHighlighted = Return abcHighlightedViewModel /\
  (highlights abcHighlightedViewModel = true <->
   exists dp, In dp (dataPoints abcHighlightedViewModel) /\ highlighted dp = true).
Proof.
  split; [exact abcHighlighted_build|].
  exact (highlights_iff_some_highlighted sampleToString sampleColour sampleFill sampleSelectionId
           abcHighlighted abcHighlightedViewModel abcHighlighted_build).
Defined.

Lemma highlighted_strict_boolean_witness :
  sampleBuild abcHighlighted = Return abcHighlightedViewModel /\
  forall i dp, nth_error (dataPoints abcHighlightedViewModel) i = Some dp ->
    highlighted dp = truthy (at_index [JSNull; JSNumber 20; JSNull] i).
Proof.
  split; [exact abcHighlighted_build|].
  exact (highlighted_strict_boolean sampleToString sampleColour sampleFill sampleSelectionId
           abcHighlighted
           (sampleCategory [JSString "A"; JSString "B"; JSString "C"])
           (sampleMeasure [JSNumber 10; JSNumber 20; JSNumber 30]
                          (Some [JSNull; JSNumber 20; JSNull]))
           {| columns := sampleColumns |} abcHighlightedViewModel
           abcHighlighted_accepted abcHighlighted_build).
Defined.

Lemma deviation_tooltips_witness :
  sampleBuild abcOptions = Return abcViewModel /\
  exists categoryColumnName valueColumnName,
  forall dp, In dp (dataPoints abcViewModel) ->
    tooltips dp =
      ([ {| tip_displayName := categoryColumnName; tip_value := category dp |};
         {| tip_displayName := valueColumnName;
            tip_value := JSString (toFixed sampleToString (value dp) 2) |};
         {| tip_displayName := "Deviation (abs)";
            tip_value := JSString (toFixed sampleToString (value dp - average abcViewModel) 2) |} ] ++
       (if negb (average abcViewModel =? 0)%float
        then [ {| tip_displayName := "Deviation (%)";
                  tip_value :=
                    JSString (toFixed sampleToString
                                (100 * (value dp - average abcViewModel) / average abcViewModel) 2
                              ++ "%") |} ]
        else []))%list.
Proof.
  split; [exact abcOptions_build|].
  exact (deviation_tooltips sampleToString sampleColour sampleFill sampleSelectionId
           abcOptions abcViewModel abcOptions_build).
Defined.

(** * More properties of the builder *)

Section BuilderProperties.

Variable Number_toString : float -> string.
Context {DataViewObjects ISelectionId : Type}.
Variable getColor : PrimitiveValue -> string.
Variable getFillColor : DataViewObjects -> string -> string -> option string.
Variable createSelectionId : DataViewCategoryColumn DataViewObjects -> nat -> ISelectionId.

Local Abbreviation build :=
  (getViewModel Number_toString getColor getFillColor createSelectionId).
Local Abbreviation point :=
  (dataPoint Number_toString getColor getFillColor createSelectionId).
Local Abbreviation summary := (summarise (ISelectionId := ISelectionId) Number_toString).

(** On a well-formed input the builder returns the summary of its points. *)
Lemma wellFormed_Return (options : VisualUpdateOptions DataViewObjects)
      (categories0 : DataViewCategoryColumn DataViewObjects) (values0 : DataViewValueColumn) :
  wellFormed options categories0 values0 ->
  exists points, build options = Return (summary points).
Proof.
  intros (md & (view & vs & Hc & Hv) & Hcat & Hmeas & Hnum).
  destruct (columnName_Return _ _ Hcat) as (cn & Hcn).
  destruct (columnName_Return _ _ Hmeas) as (vn & Hvn).
  destruct (forEach_Return (point categories0 values0 cn vn)
                           (seq 0 (rowCount categories0 values0))) as (pts & Hpts).
  { intros i Hi. apply in_seq in Hi.
    apply (numericRows_point Number_toString getColor getFillColor createSelectionId);
      [assumption | lia]. }
  exists pts. unfold getViewModel. rewrite Hc. cbn [bind]. rewrite Hv, Hcn. cbn [bind].
  rewrite Hvn. cbn [bind]. cbv zeta. rewrite Hpts. reflexivity.
Qed.

(** The builder returns exactly on the inputs its guard rejects and on the
    well-formed ones; on every other input it throws. *)
Theorem getViewModel_returns_iff (options : VisualUpdateOptions DataViewObjects) :
  (exists vm, build options = Return vm) <->
  (inputCheck options = Return Rejected \/
   exists categories0 values0, wellFormed options categories0 values0).
Proof.
  split.
  - intros (vm & H). destruct (getViewModel_Return _ _ _ _ _ _ H)
      as [[Hr _] | (view & c & vs & md & v0 & cn & vn & pts & Hc & Hv & _)]; [auto|].
    right. exists c, v0.
    apply (returned_is_wellFormed Number_toString getColor getFillColor createSelectionId
             options c v0 md vm); [|assumption].
    exists view, vs. auto.
  - intros [Hr | (c & v & Hw)].
    + exists emptyViewModel. now apply rejected_gives_empty.
    + destruct (wellFormed_Return _ _ _ Hw) as (pts & H). eauto.
Qed.

(** The colour of a data point as the first loop sets it. *)
Lemma dataPoint_colour (categories0 : DataViewCategoryColumn DataViewObjects)
      (values0 : DataViewValueColumn) (categoryColumnName valueColumnName : string)
      (i : nat) (dp : DataPoint ISelectionId) :
  point categories0 values0 categoryColumnName valueColumnName i = Return dp ->
  colour dp =
    rowColour getColor getFillColor (cat_objects categories0)
              (at_index (cat_values categories0) i) i.
Proof.
  unfold dataPoint. intros H.
  apply bind_Return in H as (x & _ & H). injection H as <-. reflexivity.
Qed.

(** The data point of row [i] in a view model built from an accepted input. *)
Lemma row_of_view_model (options : VisualUpdateOptions DataViewObjects)
      (categories0 : DataViewCategoryColumn DataViewObjects) (values0 : DataViewValueColumn)
      (metadata0 : DataViewMetadata) (vm : ViewModel ISelectionId) :
  accepted options categories0 values0 metadata0 ->
  build options = Return vm ->
  List.length (dataPoints vm) = rowCount categories0 values0 /\
  forall i dp, nth_error (dataPoints vm) i = Some dp ->
    category dp = at_index (cat_values categories0) i /\
    JSNumber (value dp) = at_index (val_values values0) i /\
    colour dp = rowColour getColor getFillColor (cat_objects categories0)
                          (at_index (cat_values categories0) i) i /\
    identity dp = createSelectionId categories0 i /\
    highlighted dp = rowHighlighted (val_highlights values0) i.
Proof.
  intros Ha H.
  destruct (getViewModel_accepted _ _ _ _ _ _ _ _ _ Ha H)
    as (cn & vn & pts & _ & _ & Hvm & Hlen & Hpts).
  subst vm. split; [now rewrite summarise_length|].
  intros i dp' Hi.
  apply summarise_nth_error in Hi as (dp & Hdp & -> & -> & -> & -> & -> & _).
  apply Hpts in Hdp. pose proof (dataPoint_colour _ _ _ _ _ _ Hdp) as Hcol.
  apply dataPoint_Return in Hdp as (Hv & Hc & Hid & Hh & _).
  repeat split; auto.
Qed.

(** The colour of row [i]: a per-row fill that is a non-empty string wins;
    without [objects], without an entry for the row, without a fill in the
    entry, or with the empty string as fill, it is the palette colour of the
    row's category. *)
Theorem colour_of_row (options : VisualUpdateOptions DataViewObjects)
        (categories0 : DataViewCategoryColumn DataViewObjects) (values0 : DataViewValueColumn)
        (metadata0 : DataViewMetadata) (vm : ViewModel ISelectionId)
        (i : nat) (dp : DataPoint ISelectionId) :
  accepted options categories0 values0 metadata0 ->
  build options = Return vm ->
  nth_error (dataPoints vm) i = Some dp ->
  (forall os o fill,
      cat_objects categories0 = Some os -> nth_error os i = Some (Some o) ->
      getFillColor o "dataColors" "fill" = Some fill -> fill <> "" ->
      colour dp = fill) /\
  (forall os o,
      cat_objects categories0 = Some os -> nth_error os i = Some (Some o) ->
      getFillColor o "dataColors" "fill" = Some "" \/ getFillColor o "dataColors" "fill" = None ->
      colour dp = getColor (category dp)) /\
  (forall os,
      cat_objects categories0 = Some os ->
      nth_error os i = None \/ nth_error os i = Some None ->
      colour dp = getColor (category dp)) /\
  (cat_objects categories0 = None -> colour dp = getColor (category dp)).
Proof.
  intros Ha H Hi.
  destruct (row_of_view_model _ _ _ _ _ Ha H) as (_ & Hrow).
  destruct (Hrow i dp Hi) as (Hc & _ & Hcol & _). rewrite Hcol, Hc. unfold rowColour.
  repeat split.
  - intros os o fill -> -> -> Hne. destruct (String.eqb_spec fill ""); [contradiction | reflexivity].
  - intros os o -> -> [-> | ->]; reflexivity.
  - intros os -> [-> | ->]; reflexivity.
  - intros ->. reflexivity.
Qed.

End BuilderProperties.

(** * Properties of [update], [updateSettings] and [enumerateObjectInstances] *)

Section FieldProperties.

Variable Number_toString : float -> string.
Context {DataViewObjects ISelectionId Selector : Type}.
Variable getColor : PrimitiveValue -> string.
Variable getFillColor : DataViewObjects -> string -> string -> option string.
Variable createSelectionId : DataViewCategoryColumn DataViewObjects -> nat -> ISelectionId.
Variable getSelector : ISelectionId -> Selector.
Variable metadata_objects : DataViewMetadata -> option DataViewObjects.
Variable getValue : option DataViewObjects -> string -> string -> bool -> bool.

Local Abbreviation build :=
  (getViewModel Number_toString getColor getFillColor createSelectionId).
Local Abbreviation settle := (updateSettings (ISelectionId := ISelectionId) metadata_objects getValue).
Local Abbreviation refresh :=
  (updateFields Number_toString getColor getFillColor createSelectionId
                metadata_objects getValue).
Local Abbreviation enumerate := (enumerateObjectInstances getSelector).
Local Abbreviation fields := (VisualFields ISelectionId).

(** ** What [updateSettings] does *)

(** The read of the metadata objects throws exactly when the data views, the
    first data view or its metadata is missing. *)
Lemma metadataObjects_Return (options : VisualUpdateOptions DataViewObjects)
      (objects : option DataViewObjects) :
  metadataObjects metadata_objects options = Return objects <->
  exists dv dv0 metadata0,
    dataViews options = Some dv /\ nth_error dv 0 = Some (Some dv0) /\
    metadata dv0 = Some metadata0 /\ objects = metadata_objects metadata0.
Proof.
  unfold metadataObjects. split.
  - destruct (dataViews options) as [dv|]; [|discriminate].
    destruct (nth_error dv 0) as [[dv0|]|] eqn:Hdv; try discriminate.
    destruct (metadata dv0) as [md|] eqn:Hmd; [|discriminate].
    intros H. injection H as <-. exists dv, dv0, md. auto.
  - intros (dv & dv0 & md & -> & -> & -> & ->). reflexivity.
Qed.

(** [updateSettings] either throws at once and changes nothing, or assigns
    both [show] values and changes nothing else. *)
Lemma updateSettings_cases (options : VisualUpdateOptions DataViewObjects) (this : fields) :
  (metadataObjects metadata_objects options = TypeError /\
   settle options this = (this, TypeError)) \/
  (exists objects,
      metadataObjects metadata_objects options = Return objects /\
      settle options this =
        (assign_y_show
           (assign_x_show this
              (getValue objects "xAxis" "show" (setting_default (axis_x_show (settings this)))))
           (getValue objects "yAxis" "show" (setting_default (axis_y_show (settings this)))),
         Return tt)).
Proof.
  unfold updateSettings.
  destruct (metadataObjects metadata_objects options) as [objects|]; [right | left; auto].
  exists objects. split; reflexivity.
Qed.

(** [update] throws, and leaves the fields as they were, whenever the data
    views, the first data view or its metadata is missing: [updateSettings]
    reads [options.dataViews[0].metadata.objects] before the builder's guard
    is reached. *)
Theorem update_throws_without_metadata (options : VisualUpdateOptions DataViewObjects)
        (this : fields) :
  (dataViews options = None \/
   exists dv, dataViews options = Some dv /\
     (nth_error dv 0 = None \/ nth_error dv 0 = Some None \/
      exists dv0, nth_error dv 0 = Some (Some dv0) /\ metadata dv0 = None)) ->
  refresh options this = (this, TypeError).
Proof.
  intros H.
  assert (Hm : metadataObjects metadata_objects options = TypeError).
  { unfold metadataObjects.
    destruct H as [-> | (dv & -> & [-> | [-> | (dv0 & -> & ->)]])]; reflexivity. }
  unfold updateFields, updateSettings. rewrite Hm. reflexivity.
Qed.

(** A call of [update] that throws never changes the stored view model, so
    the data colours enumerated afterwards are those of the last update that
    returned. *)
Theorem update_throw_keeps_view_model (options : VisualUpdateOptions DataViewObjects)
        (this : fields) :
  snd (refresh options this) = TypeError ->
  viewModel (fst (refresh options this)) = viewModel this /\
  enumerate "dataColors" (fst (refresh options this)) = enumerate "dataColors" this.
Proof.
  unfold updateFields.
  destruct (updateSettings_cases options this) as [[_ ->] | (objects & _ & ->)].
  - intros _. split; reflexivity.
  - destruct (build options) as [vm|]; simpl; [discriminate|].
    intros _. split; reflexivity.
Qed.

Lemma updateFields_Return_viewModel (options : VisualUpdateOptions DataViewObjects)
      (this this' : fields) :
  refresh options this = (this', Return tt) ->
  exists vm, build options = Return vm /\ viewModel this' = Some vm.
Proof.
  unfold updateFields.
  destruct (updateSettings_cases options this) as [[_ ->] | (objects & _ & ->)];
    [discriminate|].
  destruct (build options) as [vm|]; [|discriminate].
  intros H. injection H as <-. exists vm. split; reflexivity.
Qed.

(** A call of [update] that returns found the metadata, stores the view model
    the builder returns for the same input, and sets each [show] value to what
    [getValue] gives for the persisted objects and the setting's default. *)
Theorem update_return_stores (options : VisualUpdateOptions DataViewObjects)
        (this this' : fields) :
  refresh options this = (this', Return tt) ->
  exists dv dv0 metadata0 vm,
    dataViews options = Some dv /\ nth_error dv 0 = Some (Some dv0) /\
    metadata dv0 = Some metadata0 /\
    build options = Return vm /\
    viewModel this' = Some vm /\
    setting_value (axis_x_show (settings this')) =
      getValue (metadata_objects metadata0) "xAxis" "show"
               (setting_default (axis_x_show (settings this))) /\
    setting_value (axis_y_show (settings this')) =
      getValue (metadata_objects metadata0) "yAxis" "show"
               (setting_default (axis_y_show (settings this))).
Proof.
  unfold updateFields.
  destruct (updateSettings_cases options this) as [[_ ->] | (objects & Hm & ->)];
    [discriminate|].
  destruct (build options) as [vm|]; [|discriminate].
  intros H. injection H as <-.
  apply metadataObjects_Return in Hm as (dv & dv0 & md & Hdv & Hdv0 & Hmd & ->).
  exists dv, dv0, md, vm. simpl. auto 10.
Qed.

(** ** Settings that never change *)

(** [update] writes the two [show] values and the view model only. *)
Lemma updateFields_frame (options : VisualUpdateOptions DataViewObjects) (this : fields) :
  axis_x_padding (settings (fst (refresh options this))) = axis_x_padding (settings this) /\
  axis_y_padding (settings (fst (refresh options this))) = axis_y_padding (settings this) /\
  border_top (settings (fst (refresh options this))) = border_top (settings this) /\
  setting_default (axis_x_show (settings (fst (refresh options this)))) =
    setting_default (axis_x_show (settings this)) /\
  setting_default (axis_y_show (settings (fst (refresh options this)))) =
    setting_default (axis_y_show (settings this)).
Proof.
  unfold updateFields.
  destruct (updateSettings_cases options this) as [[_ ->] | (objects & _ & ->)].
  - simpl. auto.
  - destruct (build options); simpl; auto.
Qed.

Lemma reachable_frame (this : fields) :
  reachable Number_toString getColor getFillColor createSelectionId
            metadata_objects getValue this ->
  axis_x_padding (settings this) = axis_x_padding initialSettings /\
  axis_y_padding (settings this) = axis_y_padding initialSettings /\
  border_top (settings this) = border_top initialSettings /\
  setting_default (axis_x_show (settings this)) = true /\
  setting_default (axis_y_show (settings this)) = true.
Proof.
  intros H. induction H as [|options this _ IH].
  - simpl. auto.
  - destruct (updateFields_frame options this) as (-> & -> & -> & -> & ->). exact IH.
Qed.

(** Whatever calls of [update] the visual has seen, both axes default to
    shown, the room of an axis is 50 when it is shown and 0 when hidden, and
    the vertical scale ends at 10 below the top. *)
Theorem reachable_settings (this : fields) :
  reachable Number_toString getColor getFillColor createSelectionId
            metadata_objects getValue this ->
  setting_default (axis_x_show (settings this)) = true /\
  setting_default (axis_y_show (settings this)) = true /\
  xAxisPadding this = (if setting_value (axis_x_show (settings this)) then 50 else 0)%float /\
  yAxisPadding this = (if setting_value (axis_y_show (settings this)) then 50 else 0)%float /\
  forall height, yScaleRange this height = ((height - xAxisPadding this)%float, 10%float).
Proof.
  intros H. destruct (reachable_frame this H) as (Hx & Hy & Hb & Hdx & Hdy).
  repeat split; auto.
  - unfold xAxisPadding. rewrite Hx. reflexivity.
  - unfold yAxisPadding. rewrite Hy. reflexivity.
  - intros height. unfold yScaleRange. rewrite Hb. reflexivity.
Qed.

(** ** Enumeration after an update *)

(** After a call of [update], returning or throwing, that found the
    metadata, the [xAxis] and [yAxis] enumerations each hold one instance,
    without selector, whose [show] is what [getValue] gives for the persisted
    objects, with [true] as the default. *)
Theorem enumerate_axes_after_update (options : VisualUpdateOptions DataViewObjects)
        (this : fields) (dv : list (option (DataView DataViewObjects)))
        (dv0 : DataView DataViewObjects) (metadata0 : DataViewMetadata) :
  reachable Number_toString getColor getFillColor createSelectionId
            metadata_objects getValue this ->
  dataViews options = Some dv ->
  nth_error dv 0 = Some (Some dv0) ->
  metadata dv0 = Some metadata0 ->
  enumerate "xAxis" (fst (refresh options this)) =
    [ {| inst_objectName := "xAxis"; inst_displayName := None;
         inst_properties :=
           ShowProperty (getValue (metadata_objects metadata0) "xAxis" "show" true);
         inst_selector := None |} ] /\
  enumerate "yAxis" (fst (refresh options this)) =
    [ {| inst_objectName := "yAxis"; inst_displayName := None;
         inst_properties :=
           ShowProperty (getValue (metadata_objects metadata0) "yAxis" "show" true);
         inst_selector := None |} ].
Proof.
  intros Hr Hdv Hdv0 Hmd.
  destruct (reachable_frame this Hr) as (_ & _ & _ & Hdx & Hdy).
  assert (Hm : metadataObjects metadata_objects options = Return (metadata_objects metadata0)).
  { apply metadataObjects_Return. exists dv, dv0, metadata0. auto. }
  unfold updateFields.
  destruct (updateSettings_cases options this) as [[Ht _] | (objects & Hm' & ->)];
    [congruence|].
  rewrite Hm in Hm'. injection Hm' as <-. rewrite Hdx, Hdy.
  destruct (build options); split; reflexivity.
Qed.

(** After a call of [update] that returns on an accepted input, the
    [dataColors] enumeration holds one instance per row, in row order: the
    row's category as display name, its colour as fill, and the selector of
    the selection id the host builds for the row. *)
Theorem enumerate_dataColors_after_update (options : VisualUpdateOptions DataViewObjects)
        (this this' : fields)
        (categories0 : DataViewCategoryColumn DataViewObjects) (values0 : DataViewValueColumn)
        (metadata0 : DataViewMetadata) :
  refresh options this = (this', Return tt) ->
  accepted options categories0 values0 metadata0 ->
  List.length (enumerate "dataColors" this') = rowCount categories0 values0 /\
  forall i, i < rowCount categories0 values0 ->
    nth_error (enumerate "dataColors" this') i =
      Some {| inst_objectName := "dataColors";
              inst_displayName := Some (at_index (cat_values categories0) i);
              inst_properties :=
                FillProperty (rowColour getColor getFillColor (cat_objects categories0)
                                        (at_index (cat_values categories0) i) i);
              inst_selector := Some (getSelector (createSelectionId categories0 i)) |}.
Proof.
  intros Hu Ha.
  destruct (updateFields_Return_viewModel _ _ _ Hu) as (vm & Hb & Hvm).
  destruct (row_of_view_model Number_toString getColor getFillColor createSelectionId
              options categories0 values0 metadata0 vm Ha Hb) as (Hlen & Hrow).
  unfold enumerateObjectInstances. simpl String.eqb. cbv iota. rewrite Hvm.
  split; [now rewrite length_map|].
  intros i Hi. rewrite nth_error_map.
  destruct (nth_error (dataPoints vm) i) as [dp|] eqn:Hdp.
  - destruct (Hrow i dp Hdp) as (Hc & _ & Hcol & Hid & _).
    unfold dataColorInstance. simpl. now rewrite Hc, Hcol, Hid.
  - apply nth_error_None in Hdp. lia.
Qed.

(** ** Opacity *)

Lemma highlights_true_inv (options : VisualUpdateOptions DataViewObjects)
      (vm : ViewModel ISelectionId) :
  build options = Return vm -> highlights vm = true ->
  exists dp, In dp (dataPoints vm) /\ highlighted dp = true.
Proof.
  intros H Hh.
  apply getViewModel_Return in H
    as [[_ ->] | (? & ? & ? & ? & ? & ? & ? & pts & _ & _ & _ & _ & _ & ->)];
    [discriminate|].
  apply In_map_true. rewrite (summarise_map Number_toString highlighted) by reflexivity.
  apply filter_nonempty. exact Hh.
Qed.

(** The drawing never dims every bar: in a view model the builder returned
    with at least one data point, some bar gets the opacity 1; and on an
    accepted input without a [highlights] array every bar gets it. *)
Theorem fillOpacity_never_dims_all (options : VisualUpdateOptions DataViewObjects)
        (vm : ViewModel ISelectionId) :
  build options = Return vm ->
  (dataPoints vm <> [] -> exists dp, In dp (dataPoints vm) /\ fillOpacity vm dp = 1%float) /\
  (forall categories0 values0 metadata0,
      accepted options categories0 values0 metadata0 ->
      val_highlights values0 = None ->
      Forall (fun dp => fillOpacity vm dp = 1%float) (dataPoints vm)).
Proof.
  intros H. split.
  - intros Hne. unfold fillOpacity. destruct (highlights vm) eqn:Hh.
    + destruct (highlights_true_inv _ _ H Hh) as (dp & Hin & Hdp).
      exists dp. now rewrite Hdp.
    + destruct (dataPoints vm) as [|dp dps]; [contradiction|].
      exists dp. split; [now left | reflexivity].
  - intros c v md Ha Hnone. apply Forall_forall. intros dp Hin.
    unfold fillOpacity. destruct (highlights vm) eqn:Hh; [|reflexivity].
    destruct (highlights_true_inv _ _ H Hh) as (dp' & Hin' & Hdp').
    apply In_nth_error in Hin' as (i & Hi).
    destruct (row_of_view_model Number_toString getColor getFillColor createSelectionId
                options c v md vm Ha H) as (_ & Hrow).
    destruct (Hrow i dp' Hi) as (_ & _ & _ & _ & Hhl).
    rewrite Hnone in Hhl. simpl in Hhl. congruence.
Qed.

End FieldProperties.

(** * The builder of [part_001] and the builder of [part_000] *)

Section LegacyProperties.

Variable Number_toString : float -> string.
Context {DataViewObjects ISelectionId : Type}.
Variable getColor : PrimitiveValue -> string.
Variable getFillColor : DataViewObjects -> string -> string -> option string.
Variable createSelectionId : DataViewCategoryColumn DataViewObjects -> nat -> ISelectionId.
Variable d3_max : list PrimitiveValue -> PrimitiveValue.

Local Abbreviation build :=
  (getViewModel Number_toString getColor getFillColor createSelectionId).
Local Abbreviation legacy := (Legacy.getViewModel getColor createSelectionId d3_max).

Lemma map_by_index {A B} (f : A -> B) (g : nat -> B) (l : list A) : forall start,
  (forall i a, nth_error l i = Some a -> f a = g (start + i)) ->
  map f l = map g (seq start (List.length l)).
Proof.
  induction l as [|a l IH]; simpl; intros start H; [reflexivity|].
  f_equal.
  - rewrite (H 0 a eq_refl). f_equal. lia.
  - apply IH. intros i b Hi. rewrite (H (S i) b Hi). f_equal. lia.
Qed.

(** What the guard of [part_000] accepts, the guard of [part_001] accepts. *)
Lemma accepted_legacy (options : VisualUpdateOptions DataViewObjects)
      (categories0 : DataViewCategoryColumn DataViewObjects) (values0 : DataViewValueColumn)
      (metadata0 : DataViewMetadata) :
  accepted options categories0 values0 metadata0 ->
  exists valueColumns,
    Legacy.inputCheck options = Return (Legacy.Accepted categories0 valueColumns) /\
    nth_error valueColumns 0 = Some values0.
Proof.
  intros (view & vs & Hc & Hv). exists vs. split; [|assumption].
  revert Hc. unfold inputCheck, Legacy.inputCheck.
  destruct (dataViews options) as [dv|]; [|discriminate].
  destruct (nth_error dv 0) as [[dv0|]|]; try discriminate.
  destruct (categorical dv0) as [view'|]; [|discriminate].
  destruct (categories view') as [cats|]; [|discriminate].
  destruct (nth_error cats 0) as [c0|]; [|discriminate].
  destruct (cat_source c0); [|discriminate].
  destruct (values view') as [vs'|]; [|discriminate].
  destruct (metadata dv0); [|discriminate].
  intros H. injection H as _ -> -> _. reflexivity.
Qed.

(** The builder of [part_001] returns on every input its guard accepts that
    has a measure column, whatever the lengths of the two arrays: it gives
    one data point per index below the longer length, and a row past the end
    of an array has [undefined] in that field. *)
Theorem legacy_handles_mismatch (options : VisualUpdateOptions DataViewObjects)
        (categories0 : DataViewCategoryColumn DataViewObjects)
        (valueColumns : list DataViewValueColumn) (values0 : DataViewValueColumn) :
  Legacy.inputCheck options = Return (Legacy.Accepted categories0 valueColumns) ->
  nth_error valueColumns 0 = Some values0 ->
  exists vm,
    legacy options = Return vm /\
    List.length (Legacy.dataPoints vm) =
      Nat.max (List.length (cat_values categories0)) (List.length (val_values values0)) /\
    forall i dp, nth_error (Legacy.dataPoints vm) i = Some dp ->
      Legacy.category dp = at_index (cat_values categories0) i /\
      Legacy.value dp = at_index (val_values values0) i /\
      (List.length (cat_values categories0) <= i -> Legacy.category dp = JSUndefined) /\
      (List.length (val_values values0) <= i -> Legacy.value dp = JSUndefined).
Proof.
  intros Hc Hv. unfold Legacy.getViewModel. rewrite Hc. cbn [bind]. rewrite Hv.
  eexists. split; [reflexivity|]. cbn [Legacy.dataPoints]. split.
  - now rewrite length_map, length_seq.
  - intros i dp Hi. rewrite nth_error_map, nth_error_seq in Hi.
    destruct (i <? rowCount categories0 values0)%nat; [|discriminate].
    injection Hi as <-. simpl. unfold at_index.
    repeat split; intros; now apply nth_overflow.
Qed.

(** Where the builder of [part_000] returns on an accepted input, the builder
    of [part_001] returns on the same input with the same rows: equal
    categories, measures, selection ids and highlighted flags, an equal
    [highlights] flag, and equal colours when the category column has no
    per-row objects. *)
Theorem legacy_agrees (options : VisualUpdateOptions DataViewObjects)
        (categories0 : DataViewCategoryColumn DataViewObjects) (values0 : DataViewValueColumn)
        (metadata0 : DataViewMetadata) (vm : ViewModel ISelectionId) :
  accepted options categories0 values0 metadata0 ->
  build options = Return vm ->
  exists vm',
    legacy options = Return vm' /\
    map Legacy.category (Legacy.dataPoints vm') = map category (dataPoints vm) /\
    map Legacy.value (Legacy.dataPoints vm') =
      map (fun dp => JSNumber (value dp)) (dataPoints vm) /\
    map Legacy.identity (Legacy.dataPoints vm') = map identity (dataPoints vm) /\
    map Legacy.highlighted (Legacy.dataPoints vm') = map highlighted (dataPoints vm) /\
    Legacy.highlights vm' = highlights vm /\
    (cat_objects categories0 = None ->
     map Legacy.colour (Legacy.dataPoints vm') = map colour (dataPoints vm)).
Proof.
  intros Ha H.
  destruct (accepted_legacy _ _ _ _ Ha) as (vs & Hc & Hv).
  destruct (row_of_view_model Number_toString getColor getFillColor createSelectionId
              options categories0 values0 metadata0 vm Ha H) as (Hlen & Hrow).
  unfold Legacy.getViewModel. rewrite Hc. cbn [bind]. rewrite Hv.
  eexists. split; [reflexivity|].
  cbn [Legacy.dataPoints Legacy.highlights]. rewrite !map_map. cbn [Legacy.dataPoint
    Legacy.category Legacy.value Legacy.identity Legacy.highlighted Legacy.colour].
  rewrite <- Hlen.
  assert (Hh : map (fun i => rowHighlighted (val_highlights values0) i)
                   (seq 0 (List.length (dataPoints vm))) = map highlighted (dataPoints vm)).
  { symmetry. apply map_by_index. intros i dp Hi. now destruct (Hrow i dp Hi) as (_ & _ & _ & _ & ->). }
  repeat split.
  - symmetry. apply map_by_index. intros i dp Hi. now destruct (Hrow i dp Hi) as (-> & _).
  - symmetry. apply map_by_index. intros i dp Hi. now destruct (Hrow i dp Hi) as (_ & -> & _).
  - symmetry. apply map_by_index. intros i dp Hi. now destruct (Hrow i dp Hi) as (_ & _ & _ & -> & _).
  - exact Hh.
  - apply eq_true_iff_eq. rewrite filter_nonempty, map_map.
    cbn [Legacy.highlighted Legacy.dataPoint]. rewrite Hh.
    destruct (getViewModel_Return _ _ _ _ _ _ H)
      as [[_ ->] | (? & ? & ? & ? & ? & ? & ? & pts & _ & _ & _ & _ & _ & ->)].
    + simpl. split; [tauto | discriminate].
    + rewrite (summarise_map Number_toString highlighted) by reflexivity.
      symmetry. apply filter_nonempty.
  - intros Hobj. symmetry. apply map_by_index. intros i dp Hi.
    destruct (Hrow i dp Hi) as (_ & _ & -> & _). rewrite Hobj. reflexivity.
Qed.

End LegacyProperties.

(** ** These theorems at the sample inputs *)

Lemma moreCategories_accepted :
  accepted moreCategories (sampleCategory [JSString "A"; JSString "B"])
           (sampleMeasure [JSNumber 10] None) {| columns := sampleColumns |}.
Proof. do 2 eexists. split; reflexivity. Defined.

Lemma abcOptions_update : sampleUpdate abcOptions constructed = (abcFields, Return tt).
Proof. vm_compute. reflexivity. Defined.

Lemma abcFields_reachable :
  reachable sampleToString sampleColour sampleFill sampleSelectionId
            sampleMetadataObjects sampleGetValue abcFields.
Proof.
  exact (reachable_update abcOptions
           (reachable_constructed sampleToString sampleColour sampleFill sampleSelectionId
              sampleMetadataObjects sampleGetValue)).
Defined.

Lemma maxValue_is_maximum_witness :
  sampleBuild abcOptions = Return abcViewModel /\
  forall dp, In dp (dataPoints abcViewModel) -> is_nan (value dp) = false ->
             (value dp <=? 30)%float = true.
Proof.
  split; [exact abcOptions_build|].
  destruct (maxValue_is_maximum sampleToString sampleColour sampleFill sampleSelectionId
              abcOptions
              (sampleCategory [JSString "A"; JSString "B"; JSString "C"])
              (sampleMeasure [JSNumber 10; JSNumber 20; JSNumber 30] None)
              {| columns := sampleColumns |} abcViewModel
              abcOptions_accepted abcOptions_build) as [_ H].
  exact (proj2 (H 30%float eq_refl)).
Defined.

Lemma more_categories_TypeError_witness :
  List.length [JSNumber 10] < List.length [JSString "A"; JSString "B"] /\
  sampleBuild moreCategories = TypeError.
Proof.
  split; [simpl; lia|].
  apply (more_categories_TypeError sampleToString sampleColour sampleFill sampleSelectionId
           moreCategories (sampleCategory [JSString "A"; JSString "B"])
           (sampleMeasure [JSNumber 10] None) {| columns := sampleColumns |}
           moreCategories_accepted).
  simpl. lia.
Defined.

Lemma colour_of_row_witness :
  sampleBuild abcOptions = Return abcViewModel /\
  forall dp, nth_error (dataPoints abcViewModel) 1 = Some dp ->
             colour dp = sampleColour (category dp).
Proof.
  split; [exact abcOptions_build|]. intros dp Hdp.
  apply (colour_of_row sampleToString sampleColour sampleFill sampleSelectionId
           abcOptions
           (sampleCategory [JSString "A"; JSString "B"; JSString "C"])
           (sampleMeasure [JSNumber 10; JSNumber 20; JSNumber 30] None)
           {| columns := sampleColumns |} abcViewModel 1 dp
           abcOptions_accepted abcOptions_build Hdp).
  reflexivity.
Defined.

Lemma update_throws_without_metadata_witness :
  dataViews noDataViews = None /\
  sampleUpdate noDataViews abcFields = (abcFields, TypeError).
Proof.
  split; [reflexivity|].
  apply (update_throws_without_metadata sampleToString sampleColour sampleFill
           sampleSelectionId sampleMetadataObjects sampleGetValue noDataViews abcFields).
  left. reflexivity.
Defined.

Lemma update_throw_keeps_view_model_witness :
  snd (sampleUpdate moreCategories abcFields) = TypeError /\
  viewModel (fst (sampleUpdate moreCategories abcFields)) = Some abcViewModel.
Proof.
  split; [vm_compute; reflexivity|].
  destruct (update_throw_keeps_view_model sampleToString sampleColour sampleFill
              sampleSelectionId sampleSelector sampleMetadataObjects sampleGetValue
              moreCategories abcFields) as [H _]; [vm_compute; reflexivity|].
  unfold sampleUpdate. rewrite H. reflexivity.
Defined.

Lemma update_return_stores_witness :
  sampleUpdate abcOptions constructed = (abcFields, Return tt) /\
  viewModel abcFields = Some abcViewModel.
Proof.
  split; [exact abcOptions_update|].
  destruct (update_return_stores sampleToString sampleColour sampleFill sampleSelectionId
              sampleMetadataObjects sampleGetValue abcOptions constructed abcFields
              abcOptions_update) as (dv & dv0 & md & vm & _ & _ & _ & Hb & Hvm & _).
  rewrite Hvm. f_equal.
  assert (E : Return vm = Return abcViewModel) by (rewrite <- Hb; exact abcOptions_build).
  injection E as ->. reflexivity.
Defined.

Lemma reachable_settings_witness :
  reachable sampleToString sampleColour sampleFill sampleSelectionId
            sampleMetadataObjects sampleGetValue abcFields /\
  xAxisPadding abcFields = 50%float.
Proof.
  split; [exact abcFields_reachable|].
  destruct (reachable_settings sampleToString sampleColour sampleFill sampleSelectionId
              sampleMetadataObjects sampleGetValue abcFields abcFields_reachable)
    as (_ & _ & H & _).
  exact H.
Defined.

Lemma enumerate_axes_after_update_witness :
  reachable sampleToString sampleColour sampleFill sampleSelectionId
            sampleMetadataObjects sampleGetValue abcFields /\
  enumerateObjectInstances sampleSelector "xAxis" (fst (sampleUpdate moreCategories abcFields)) =
    [ {| inst_objectName := "xAxis"; inst_displayName := None;
         inst_properties := ShowProperty true; inst_selector := None |} ].
Proof.
  split; [exact abcFields_reachable|].
  refine (proj1 (enumerate_axes_after_update sampleToString sampleColour sampleFill
                   sampleSelectionId sampleSelector sampleMetadataObjects sampleGetValue
                   moreCategories abcFields _ _ {| columns := sampleColumns |}
                   abcFields_reachable eq_refl eq_refl eq_refl)).
Defined.

Lemma enumerate_dataColors_after_update_witness :
  sampleUpdate abcOptions constructed = (abcFields, Return tt) /\
  List.length (enumerateObjectInstances sampleSelector "dataColors" abcFields) = 3.
Proof.
  split; [exact abcOptions_update|].
  exact (proj1 (enumerate_dataColors_after_update sampleToString sampleColour sampleFill
                  sampleSelectionId sampleSelector sampleMetadataObjects sampleGetValue
                  abcOptions constructed abcFields
                  (sampleCategory [JSString "A"; JSString "B"; JSString "C"])
                  (sampleMeasure [JSNumber 10; JSNumber 20; JSNumber 30] None)
                  {| columns := sampleColumns |}
                  abcOptions_update abcOptions_accepted)).
Defined.

Lemma fillOpacity_never_dims_all_witness :
  sampleBuild abcHighlighted = Return abcHighlightedViewModel /\
  exists dp, In dp (dataPoints abcHighlightedViewModel) /\
             fillOpacity abcHighlightedViewModel dp = 1%float.
Proof.
  split; [exact abcHighlighted_build|].
  apply (fillOpacity_never_dims_all sampleToString sampleColour sampleFill sampleSelectionId
           abcHighlighted abcHighlightedViewModel abcHighlighted_build).
  discriminate.
Defined.

Lemma legacy_handles_mismatch_witness :
  exists vm,
    Legacy.getViewModel sampleColour sampleSelectionId sampleMax moreCategories = Return vm /\
    List.length (Legacy.dataPoints vm) = 2.
Proof.
  destruct (legacy_handles_mismatch sampleColour sampleSelectionId sampleMax moreCategories
              (sampleCategory [JSString "A"; JSString "B"])
              [sampleMeasure [JSNumber 10] None] (sampleMeasure [JSNumber 10] None)
              eq_refl eq_refl) as (vm & H & Hlen & _).
  exists vm. split; [exact H | exact Hlen].
Defined.

Lemma legacy_agrees_witness :
  sampleBuild abcOptions = Return abcViewModel /\
  exists vm',
    Legacy.getViewModel sampleColour sampleSelectionId sampleMax abcOptions = Return vm' /\
    map Legacy.category (Legacy.dataPoints vm') = map category (dataPoints abcViewModel) /\
    Legacy.highlights vm' = highlights abcViewModel.
Proof.
  split; [exact abcOptions_build|].
  destruct (legacy_agrees sampleToString sampleColour sampleFill sampleSelectionId sampleMax
              abcOptions
              (sampleCategory [JSString "A"; JSString "B"; JSString "C"])
              (sampleMeasure [JSNumber 10; JSNumber 20; JSNumber 30] None)
              {| columns := sampleColumns |} abcViewModel
              abcOptions_accepted abcOptions_build)
    as (vm' & H & Hc & _ & _ & _ & Hh & _).
  exists vm'. auto.
Defined.
